(** * modeling_siglip.py: a SigLIP-style vision encoder on PyTorch

    A shallow embedding of [src/modeling_siglip.py].  Each class of the file
    is a module here, holding a record for the attributes [__init__] assigns
    and one function per method, so that [SiglipVisionEmbeddings.forward]
    below is the method of that name in the source.

    Python raises; the embedding returns a [result].  The PyTorch layers the
    file builds on (nn.Conv2d, nn.Embedding, nn.Linear, nn.LayerNorm, the
    tensor methods) are not part of the file; they are written out from the
    PyTorch documentation in the modules [torch] and [nn].  A tensor is its
    shape together with its element at every multi-index, over a scalar type
    whose arithmetic is left abstract (floating point is not modelled). *)

From Stdlib Require Import ZArith Lia.
From stdpp Require Import base option list numbers strings gmap.

Local Open Scope string_scope.
Local Open Scope list_scope.
Local Open Scope Z_scope.

(** ** Python: exceptions, calls, the module namespace *)

Module Py.

(** Why a call could not bind its arguments. *)
Inductive call_error :=
| UnexpectedKeyword (keyword : string)
| MultipleValues (param : string)
| TooManyPositional
| MissingArgument (param : string)
| NotCallable.

(** The exception classes the file can raise.  The text of a message is not
    modelled; [where_] is a short tag naming the check that failed.  The
    last two are for the machine, when it cannot create a tensor. *)
Inductive exn :=
| NameError (name : string)
| TypeError (why : call_error)
| ValueError (where_ : string)
| RuntimeError (where_ : string)
| IndexError (where_ : string)
| ZeroDivisionError
| NotImplementedError (class_name : string)
| OverflowError
| MemoryError.

Inductive result (A : Type) :=
| Ok (value : A)
| Raise (e : exn).
Arguments Ok {A} value.
Arguments Raise {A} e.

#[export] Instance result_ret : MRet result := @Ok.
#[export] Instance result_bind : MBind result :=
  λ A B f m, match m with Ok a => f a | Raise e => Raise e end.
#[export] Instance result_fmap : FMap result :=
  λ A B f m, match m with Ok a => Ok (f a) | Raise e => Raise e end.
#[export] Instance result_throw : MThrow exn result := @Raise.

Definition returns {A} (m : result A) : bool :=
  match m with Ok _ => true | Raise _ => false end.

(** [a // b] on Python integers: floor division, [ZeroDivisionError] on a
    zero divisor.  [Z.div] rounds towards minus infinity as [//] does. *)
Definition floordiv (a b : Z) : result Z :=
  if decide (b = 0) then Raise ZeroDivisionError else Ok (a `div` b).

(** [a, b, c, d = xs] *)
Definition unpack4 {A} (xs : list A) : result (A * A * A * A) :=
  match xs with
  | [a; b; c; d] => Ok (a, b, c, d)
  | _ => Raise (ValueError "unpack: expected 4 values")
  end.

(** [a, b = xs] *)
Definition unpack2 {A} (xs : list A) : result (A * A) :=
  match xs with
  | [a; b] => Ok (a, b)
  | _ => Raise (ValueError "unpack: expected 2 values")
  end.

(** *** Binding the arguments of a call

    Every method of the file that is reached through a call takes [self]
    and one more parameter.  [bind_arguments param args kwargs] is the value
    that parameter receives from the positional arguments [args] and the
    keyword arguments [kwargs], in the order the interpreter checks them:
    positional values first, then each keyword in turn (a keyword that names
    no parameter is refused on the spot), then the count of positional
    values, then missing parameters. *)
Fixpoint bind_keywords {V} (param : string) (slot : option V)
    (kwargs : list (string * V)) : result (option V) :=
  match kwargs with
  | [] => Ok slot
  | (k, v) :: rest =>
      if decide (k = param) then
        match slot with
        | Some _ => Raise (TypeError (MultipleValues param))
        | None => bind_keywords param (Some v) rest
        end
      else Raise (TypeError (UnexpectedKeyword k))
  end.

Definition bind_arguments {V} (param : string) (args : list V)
    (kwargs : list (string * V)) : result V :=
  slot ← bind_keywords param (head args) kwargs;
  if decide (1 < length args)%nat then Raise (TypeError TooManyPositional)
  else match slot with
       | Some v => Ok v
       | None => Raise (TypeError (MissingArgument param))
       end.

(** An object of a class that is not in the file, seen through its call:
    positional arguments, keyword arguments, a result or an exception. *)
Definition Callable (V Out : Type) : Type :=
  list V → list (string * V) → result Out.

(** *** The namespace of the module

    What a name of the module's global namespace is bound to once the file
    has been executed: its three import statements and its six class
    statements bind ten names, in this order, and nothing else does. *)
Inductive binding :=
| ImportedModule (qualified_name : string)
| ImportedName (from_module name : string)
| ClassStatement (line : positive).

Definition module_globals : gmap string binding :=
  list_to_map
    [ ("torch", ImportedModule "torch");                  (* line 1 *)
      ("nn", ImportedModule "torch.nn");                   (* line 2 *)
      ("Optional", ImportedName "typing" "Optional");      (* line 3 *)
      ("Tuple", ImportedName "typing" "Tuple");            (* line 3 *)
      ("SiglipVisionConfig", ClassStatement 5);
      ("SiglipVisionEmbeddings", ClassStatement 35);
      ("SiglipMLP", ClassStatement 83);
      ("SiglipEncoderLayer", ClassStatement 97);
      ("SiglipVisionTransformer", ClassStatement 121);
      ("SiglipVisionModel", ClassStatement 143) ].

(** The builtins the file refers to by name; [None] is a keyword. *)
Definition builtins : gset string := {[ "super"; "int" ]}.

(** Reading a global name inside a function body: the module namespace,
    then the builtins, then [NameError]. *)
Definition load_global (name : string) : result unit :=
  match module_globals !! name with
  | Some _ => Ok ()
  | None => if decide (name ∈ builtins) then Ok () else Raise (NameError name)
  end.

End Py.
Export Py.

(** ** Scalars

    The element type of a floating-point tensor and what the layers compute
    with it.  Nothing is assumed of these operations: rounding makes
    floating-point addition neither associative nor exact, and the order in
    which a kernel adds up the terms of a reduction is the framework's, so
    a reduction is one operation [Rsum] on the list of its terms. *)
Class Scalar (R : Type) := {
  Rzero : R;
  Rone : R;
  (** the literal [1e-6] *)
  R1e_6 : R;
  Radd : R → R → R;
  Rmul : R → R → R;
  Rsum : list R → R;
  (** GELU of one value under an [approximate] mode *)
  Rgelu : string → R → R;
  (** layer normalization of one row: [Rnormalize eps row i] is the value at
      position [i] of [(row - mean row) / sqrt (var row + eps)] *)
  Rnormalize : R → list R → nat → R;
  (** the value a parameter's initializer writes at an index; parameters
      are told apart by an attribute path such as ["fc1.weight"] *)
  Rinit : string → list nat → R
}.

(** ** The machine

    Creating a tensor of the given sizes, none of them negative: [None]
    when the framework creates it, and otherwise the exception it raises,
    as it does when a size or the size of the storage does not fit a
    64-bit integer, or when the memory is not there.  This depends on the
    machine the code runs on, and nothing is assumed of it. *)
Class Allocator := alloc_error : list Z → option exn.

(** ** torch: tensors *)

Module torch.

Record Tensor (A : Type) := mkTensor {
  shape : list nat;
  elem : list nat → A
}.
Arguments mkTensor {A} shape elem.
Arguments shape {A} t.
Arguments elem {A} t idx.

Definition numel (s : list nat) : nat := foldr Nat.mul 1%nat s.

(** Every multi-index of a shape, in row-major order. *)
Fixpoint indices (s : list nat) : list (list nat) :=
  match s with
  | [] => [[]]
  | d :: s' => i ← seq 0 d; (i ::.) <$> indices s'
  end.

(** The multi-index within [dims] of the [n]-th element in row-major order. *)
Fixpoint unravel (dims : list nat) (n : nat) : list nat :=
  match dims with
  | [] => []
  | _ :: rest => (n / numel rest)%nat :: unravel rest (n `mod` numel rest)%nat
  end.

(** *** Broadcasting

    Shapes are aligned at their last dimension; two sizes are compatible
    when they are equal or one of them is 1. *)
Fixpoint broadcast_rev (a b : list nat) : result (list nat) :=
  match a, b with
  | [], _ => Ok b
  | _, [] => Ok a
  | x :: a', y :: b' =>
      rest ← broadcast_rev a' b';
      if decide (x = y) then Ok (x :: rest)
      else if decide (x = 1%nat) then Ok (y :: rest)
      else if decide (y = 1%nat) then Ok (x :: rest)
      else Raise (RuntimeError "broadcast: sizes differ at a non-singleton dimension")
  end.

Definition broadcast_shapes (a b : list nat) : result (list nat) :=
  reverse <$> broadcast_rev (reverse a) (reverse b).

(** The index an operand of shape [s] is read at for the index [idx] of the
    broadcast result: leading dimensions the operand lacks are dropped, and
    a dimension of size 1 is read at 0. *)
Definition broadcast_index (s idx : list nat) : list nat :=
  zip_with (λ d i, if decide (d = 1%nat) then 0%nat else i) s
           (drop (length idx - length s) idx).

Section ops.
Context {R : Type} `{!Scalar R} {machine : Allocator}.

(** [x + y] *)
Definition add (x y : Tensor R) : result (Tensor R) :=
  s ← broadcast_shapes (shape x) (shape y);
  Ok (mkTensor s (λ idx, Radd (elem x (broadcast_index (shape x) idx))
                              (elem y (broadcast_index (shape y) idx)))).

(** [torch.empty(dims)] followed by the initializer of the parameter
    [name]: a negative size is refused, and so are sizes the machine
    cannot create a tensor of. *)
Definition empty (name : string) (dims : list Z) : result (Tensor R) :=
  if decide (Forall (λ d, 0 ≤ d) dims)
  then match alloc_error dims with
       | None => Ok (mkTensor (Z.to_nat <$> dims) (Rinit name))
       | Some e => Raise e
       end
  else Raise (RuntimeError "empty: negative dimension").

Definition full (value : R) (dims : list Z) : result (Tensor R) :=
  if decide (Forall (λ d, 0 ≤ d) dims)
  then match alloc_error dims with
       | None => Ok (mkTensor (Z.to_nat <$> dims) (λ _, value))
       | Some e => Raise e
       end
  else Raise (RuntimeError "empty: negative dimension").
End ops.

(** [torch.arange(end)]: the integers [0, 1, ..., end - 1], in a new
    tensor of [end] entries. *)
Definition arange `{!Allocator} (end_ : Z) : result (Tensor Z) :=
  if decide (end_ < 0)
  then Raise (RuntimeError "arange: upper bound below lower bound")
  else match alloc_error [end_] with
       | None =>
           Ok (mkTensor [Z.to_nat end_]
                 (λ idx, Z.of_nat (default 0%nat (head idx))))
       | Some e => Raise e
       end.

(** [x.unsqueeze(0)] and [x.squeeze(0)] on a first dimension of size 1. *)
Definition unsqueeze0 {A} (x : Tensor A) : Tensor A :=
  mkTensor (1%nat :: shape x) (λ idx, elem x (tail idx)).
Definition squeeze0 {A} (x : Tensor A) : Tensor A :=
  mkTensor (tail (shape x)) (λ idx, elem x (0%nat :: idx)).

(** [x.expand(sizes)]: the sizes are aligned at the last dimension; [-1]
    keeps the size of an existing dimension, any other size must equal it
    unless the dimension has size 1; new leading dimensions take the size
    given, which may not be [-1]. *)
Fixpoint expand_rev (sizes : list Z) (s : list nat) : result (list nat) :=
  match sizes, s with
  | [], [] => Ok []
  | [], _ :: _ => Raise (RuntimeError "expand: fewer sizes than dimensions")
  | n :: sizes', [] =>
      rest ← expand_rev sizes' [];
      if decide (n < 0) then Raise (RuntimeError "expand: -1 in a new leading dimension")
      else Ok (Z.to_nat n :: rest)
  | n :: sizes', d :: s' =>
      rest ← expand_rev sizes' s';
      if decide (n = -1) then Ok (d :: rest)
      else if decide (n = Z.of_nat d) then Ok (d :: rest)
      else if decide (d = 1%nat ∧ 0 ≤ n) then Ok (Z.to_nat n :: rest)
      else Raise (RuntimeError "expand: size does not match a non-singleton dimension")
  end.

Definition expand {A} (sizes : list Z) (x : Tensor A) : result (Tensor A) :=
  s ← reverse <$> expand_rev (reverse sizes) (reverse (shape x));
  Ok (mkTensor s (λ idx, elem x (broadcast_index (shape x) idx))).

(** [x.flatten(start_dim)]: the dimensions from [start_dim] on become one. *)
Definition flatten {A} (start_dim : nat) (x : Tensor A) : result (Tensor A) :=
  if decide (start_dim < length (shape x))%nat then
    let kept := take start_dim (shape x) in
    let merged := drop start_dim (shape x) in
    Ok (mkTensor (kept ++ [numel merged])
          (λ idx, elem x (take start_dim idx ++
                          unravel merged (default 0%nat (idx !! start_dim)))))
  else Raise (IndexError "flatten: dimension out of range").

(** [l] with the entries at [i] and [j] exchanged. *)
Definition swap (i j : nat) (l : list nat) : list nat :=
  <[i := default 0%nat (l !! j)]> (<[j := default 0%nat (l !! i)]> l).

(** [x.transpose(dim0, dim1)] *)
Definition transpose {A} (dim0 dim1 : nat) (x : Tensor A) : result (Tensor A) :=
  if decide (dim0 < length (shape x) ∧ dim1 < length (shape x))%nat then
    Ok (mkTensor (swap dim0 dim1 (shape x)) (λ idx, elem x (swap dim0 dim1 idx)))
  else Raise (IndexError "transpose: dimension out of range").

End torch.

(** ** torch.nn: the layers the file instantiates *)

Module nn.
Import torch.

(** *** nn.Module: how calling a module reaches its [forward] *)
Module Module_.
Section protocol.
Context {R : Type}.

(** What a class body binds a name to: the constructor, embedded as the
    [__init__] function of the class's module, or a method of [self] and
    one tensor parameter. *)
Inductive member (Self : Type) :=
| Constructor
| Method (param : string) (body : Self → Tensor R → result (Tensor R)).

Record class (Self : Type) := mkClass {
  name : string;
  (** the names the class statement's body defines *)
  dict : gmap string (member Self)
}.

(** [nn.Module.forward] itself: the placeholder
    [_forward_unimplemented(self, *input)] every subclass inherits. *)
Definition _forward_unimplemented (class_name : string)
    (args : list (Tensor R)) (kwargs : list (string * Tensor R))
    : result (Tensor R) :=
  match kwargs with
  | (k, _) :: _ => Raise (TypeError (UnexpectedKeyword k))
  | [] => Raise (NotImplementedError class_name)
  end.

(** [nn.Module.__call__]: [self.forward] is looked up, first among the
    names of the object's own class, then in [nn.Module], and called with
    the arguments of the call. *)
Definition __call__ {Self} (cls : class Self) (self : Self)
    (args : list (Tensor R)) (kwargs : list (string * Tensor R))
    : result (Tensor R) :=
  match dict Self cls !! "forward" with
  | Some (Method _ param body) =>
      x ← bind_arguments param args kwargs; body self x
  | Some (Constructor _) => Raise (TypeError NotCallable)
  | None => _forward_unimplemented (name Self cls) args kwargs
  end.
End protocol.
Arguments Constructor {R Self}.
Arguments Method {R Self} param body.
Arguments mkClass {R Self} name dict.
Arguments name {R Self} c.
Arguments dict {R Self} c.
End Module_.

(** *** nn.Conv2d

    [nn.Conv2d(in_channels, out_channels, kernel_size, stride, padding)]
    with a square kernel, the same stride in both directions, a padding
    given by name, dilation 1 and one group. *)
Module Conv2d.
Section layer.
Context {R : Type} `{!Scalar R} {machine : Allocator}.

Record t := mk {
  in_channels : Z;
  out_channels : Z;
  kernel_size : Z;
  stride : Z;
  padding : string;
  weight : Tensor R;
  bias : Tensor R
}.

Definition __init__ (path : string)
    (in_channels out_channels kernel_size stride : Z) (padding : string)
    : result t :=
  if decide (padding ≠ "valid" ∧ padding ≠ "same")
  then Raise (ValueError "Conv2d: invalid padding string")
  else if decide (padding = "same" ∧ stride ≠ 1)
  then Raise (ValueError "Conv2d: padding='same' needs stride 1")
  else
    weight ← empty (path +:+ ".weight")
               [out_channels; in_channels; kernel_size; kernel_size];
    bias ← empty (path +:+ ".bias") [out_channels];
    Ok (mk in_channels out_channels kernel_size stride padding weight bias).

(** Rows (or columns) of zeros put before the input, and in total:
    none under ["valid"]; under ["same"] as many as keep the size. *)
Definition pad_before (padding : string) (kernel : nat) : nat :=
  if decide (padding = "same") then ((kernel - 1) / 2)%nat else 0%nat.
Definition pad_total (padding : string) (kernel : nat) : nat :=
  if decide (padding = "same") then (kernel - 1)%nat else 0%nat.

(** The padded input at row [y] and column [z] of channel [c]. *)
Definition padded (input : Tensor R) (pad : nat) (b c y z : nat) : R :=
  match shape input with
  | [_; _; H; W] =>
      if decide (pad ≤ y < pad + H ∧ pad ≤ z < pad + W)%nat
      then elem input [b; c; y - pad; z - pad]%nat
      else Rzero
  | _ => Rzero
  end.

(** The rows (or columns) of the padded input under the kernel when it
    produces row (or column) [i] of the output. *)
Definition window (kernel stride i : nat) : list nat :=
  (λ u, i * stride + u)%nat <$> seq 0 kernel.

(** The products one output element adds up. *)
Definition terms (self : t) (input : Tensor R) (b o i j : nat) : list R :=
  let k := Z.to_nat (kernel_size self) in
  let s := Z.to_nat (stride self) in
  let pad := pad_before (padding self) k in
  c ← seq 0 (Z.to_nat (in_channels self));
  y ← window k s i;
  z ← window k s j;
  [Rmul (padded input pad b c y z)
        (elem (weight self) [o; c; y - i * s; z - j * s]%nat)].

(** The layer on a batched input [[B, C, H, W]].  The checks are those of
    the framework, in its order: a positive stride, a weight with an
    output channel, the layer's number of input channels, a kernel no
    larger than the padded input.  The result has shape
    [[B, out_channels, H', W']]; for an input without channels the
    framework returns a result without channels. *)
Definition forward_batched (self : t) (input : Tensor R)
    : result (Tensor R) :=
  match shape input with
  | [B; C; H; W] =>
      let k := Z.to_nat (kernel_size self) in
      let s := Z.to_nat (stride self) in
      let extra := pad_total (padding self) k in
      if decide (stride self ≤ 0)
      then Raise (RuntimeError "conv2d: non-positive stride")
      else if decide (out_channels self < 1)
      then Raise (RuntimeError "conv2d: weight without output channels")
      else if decide (Z.of_nat C ≠ in_channels self)
      then Raise (RuntimeError "conv2d: number of input channels")
      else if decide (kernel_size self ≤ 0)
      then Raise (RuntimeError "conv2d: empty kernel")
      else if decide (H + extra < k ∨ W + extra < k)%nat
      then Raise (RuntimeError "conv2d: kernel larger than the input")
      else
        Ok (mkTensor
              [B;
               if decide (C = 0%nat) then 0%nat
               else Z.to_nat (out_channels self);
               ((H + extra - k) / s + 1)%nat; ((W + extra - k) / s + 1)%nat]
              (λ idx, match idx with
                      | [b; o; i; j] =>
                          Radd (Rsum (terms self input b o i j))
                               (elem (bias self) [o])
                      | _ => Rzero
                      end))
  | _ => Raise (RuntimeError "conv2d: expected a 3-D or 4-D input")
  end.

(** [self(input)]: a 4-D input is a batch; a 3-D input [[C, H, W]] is one
    image, run as a batch of one whose result loses the batch dimension. *)
Definition forward (self : t) (input : Tensor R) : result (Tensor R) :=
  match shape input with
  | [_; _; _] => squeeze0 <$> forward_batched self (unsqueeze0 input)
  | _ => forward_batched self input
  end.
End layer.
Arguments t R : clear implicits.
End Conv2d.

(** *** nn.Embedding: a table of [num_embeddings] rows *)
Module Embedding.
Section layer.
Context {R : Type} `{!Scalar R} {machine : Allocator}.

Record t := mk {
  num_embeddings : Z;
  embedding_dim : Z;
  weight : Tensor R
}.

Definition __init__ (path : string) (num_embeddings embedding_dim : Z)
    : result t :=
  weight ← empty (path +:+ ".weight") [num_embeddings; embedding_dim];
  Ok (mk num_embeddings embedding_dim weight).

(** [self(input)]: every entry of the integer tensor [input] selects a
    row; an entry that is no row of the table is an [IndexError]. *)
Definition forward (self : t) (input : Tensor Z) : result (Tensor R) :=
  if decide (Forall (λ idx, 0 ≤ elem input idx < num_embeddings self)
                    (indices (shape input)))
  then
    let rank := length (shape input) in
    Ok (mkTensor (shape input ++ [Z.to_nat (embedding_dim self)])
          (λ idx, elem (weight self)
                    [Z.to_nat (elem input (take rank idx));
                     default 0%nat (idx !! rank)]))
  else Raise (IndexError "embedding: index out of range in self").
End layer.
Arguments t R : clear implicits.
End Embedding.

(** *** nn.Linear: [y = x W^T + b] on the last dimension *)
Module Linear.
Section layer.
Context {R : Type} `{!Scalar R} {machine : Allocator}.

Record t := mk {
  in_features : Z;
  out_features : Z;
  weight : Tensor R;
  bias : Tensor R
}.

Definition __init__ (path : string) (in_features out_features : Z)
    : result t :=
  weight ← empty (path +:+ ".weight") [out_features; in_features];
  bias ← empty (path +:+ ".bias") [out_features];
  Ok (mk in_features out_features weight bias).

Definition forward (self : t) (input : Tensor R) : result (Tensor R) :=
  match last (shape input) with
  | Some n =>
      if decide (Z.of_nat n = in_features self) then
        let rank := length (shape input) in
        let lead := take (rank - 1) (shape input) in
        Ok (mkTensor (lead ++ [Z.to_nat (out_features self)])
              (λ idx,
                 let pre := take (rank - 1) idx in
                 let o := default 0%nat (idx !! (rank - 1)%nat) in
                 Radd (Rsum ((λ i, Rmul (elem input (pre ++ [i]))
                                        (elem (weight self) [o; i]))
                             <$> seq 0 n))
                      (elem (bias self) [o])))
      else Raise (RuntimeError "linear: shapes cannot be multiplied")
  | None => Raise (RuntimeError "linear: input has no dimension")
  end.
End layer.
Arguments t R : clear implicits.
End Linear.

(** *** nn.LayerNorm over the last dimension *)
Module LayerNorm.
Section layer.
Context {R : Type} `{!Scalar R} {machine : Allocator}.

Record t := mk {
  normalized_shape : Z;
  eps : R;
  weight : Tensor R;
  bias : Tensor R
}.

Definition __init__ (normalized_shape : Z) (eps : R) : result t :=
  weight ← full Rone [normalized_shape];
  bias ← full Rzero [normalized_shape];
  Ok (mk normalized_shape eps weight bias).

Definition forward (self : t) (input : Tensor R) : result (Tensor R) :=
  match last (shape input) with
  | Some n =>
      if decide (Z.of_nat n = normalized_shape self) then
        let rank := length (shape input) in
        Ok (mkTensor (shape input)
              (λ idx,
                 let pre := take (rank - 1) idx in
                 let i := default 0%nat (idx !! (rank - 1)%nat) in
                 let row := (λ j, elem input (pre ++ [j])) <$> seq 0 n in
                 Radd (Rmul (Rnormalize (eps self) row i)
                            (elem (weight self) [i]))
                      (elem (bias self) [i])))
      else Raise (RuntimeError "layer_norm: last dimension differs from normalized_shape")
  | None => Raise (RuntimeError "layer_norm: input has no dimension")
  end.
End layer.
Arguments t R : clear implicits.
End LayerNorm.

(** *** torch.nn.functional *)
Module functional.
Section functions.
Context {R : Type} `{!Scalar R} {machine : Allocator}.

(** [gelu(input, approximate)]: element by element; the mode is
    ["none"] or ["tanh"]. *)
Definition gelu (input : Tensor R) (approximate : string)
    : result (Tensor R) :=
  if decide (approximate = "none" ∨ approximate = "tanh")
  then Ok (mkTensor (shape input) (λ idx, Rgelu approximate (elem input idx)))
  else Raise (RuntimeError "gelu: approximate must be none or tanh").
End functions.
End functional.

End nn.

Import torch.

(** ** class SiglipVisionConfig (lines 5-32) *)
Module SiglipVisionConfig.
Section cls.
Context {R : Type} `{!Scalar R} {machine : Allocator}.

Record t := mk {
  hidden_size : Z;
  intermediate_size : Z;
  num_hidden_layers : Z;
  num_attention_heads : Z;
  num_channels : Z;
  image_size : Z;
  patch_size : Z;
  layer_norm_eps : R;
  attention_dropout : R;
  num_image_tokens : option Z
}.

(** An argument the caller leaves out is [None] here and takes the default
    of the signature; further keyword arguments ([**kwargs]) are dropped. *)
Definition __init__
    (hidden_size intermediate_size num_hidden_layers num_attention_heads
     num_channels image_size patch_size : option Z)
    (layer_norm_eps attention_dropout : option R)
    (num_image_tokens : option Z) : result t :=
  load_global "super";;
  Ok {| hidden_size := default 768 hidden_size;
        intermediate_size := default 3072 intermediate_size;
        num_hidden_layers := default 12 num_hidden_layers;
        num_attention_heads := default 12 num_attention_heads;
        num_channels := default 3 num_channels;
        image_size := default 224 image_size;
        patch_size := default 16 patch_size;
        layer_norm_eps := default R1e_6 layer_norm_eps;
        attention_dropout := default Rzero attention_dropout;
        num_image_tokens := num_image_tokens |}.
End cls.
Arguments t R : clear implicits.
End SiglipVisionConfig.

(** ** class SiglipVisionEmbeddings (lines 35-81) *)
Module SiglipVisionEmbeddings.
Section cls.
Context {R : Type} `{!Scalar R} {machine : Allocator}.

Record t := mk {
  config : SiglipVisionConfig.t R;
  embed_dim : Z;
  image_size : Z;
  patch_size : Z;
  patch_embedding : nn.Conv2d.t R;
  num_patches : Z;
  num_positions : Z;
  position_embedding : nn.Embedding.t R;
  position_ids : Tensor Z
}.

Definition __init__ (config : SiglipVisionConfig.t R) : result t :=
  load_global "super";;
  let embed_dim := SiglipVisionConfig.hidden_size config in
  let image_size := SiglipVisionConfig.image_size config in
  let patch_size := SiglipVisionConfig.patch_size config in
  load_global "nn";;
  patch_embedding ←
    nn.Conv2d.__init__ "patch_embedding"
      (SiglipVisionConfig.num_channels config) (* in_channels *)
      embed_dim                                (* out_channels *)
      patch_size                               (* kernel_size *)
      patch_size                               (* stride *)
      "valid";
  quotient ← floordiv image_size patch_size;
  let num_patches := quotient ^ 2 in
  let num_positions := num_patches in
  load_global "nn";;
  position_embedding ←
    nn.Embedding.__init__ "position_embedding" num_positions embed_dim;
  load_global "torch";;
  range ← arange num_positions;
  position_ids ← expand [1; -1] range;
  Ok (mk config embed_dim image_size patch_size patch_embedding
         num_patches num_positions position_embedding position_ids).

Definition forward (self : t) (pixel_values : Tensor R)
    : result (Tensor R) :=
  '(_, _, height, width) ← unpack4 (shape pixel_values);
  patch_embed ← nn.Conv2d.forward (patch_embedding self) pixel_values;
  embeddings ← flatten 2 patch_embed;
  embeddings ← transpose 1 2 embeddings;
  positions ← nn.Embedding.forward (position_embedding self)
                (position_ids self);
  embeddings ← add embeddings positions;
  Ok embeddings.

Definition class_ : nn.Module_.class t :=
  nn.Module_.mkClass "SiglipVisionEmbeddings"
    (list_to_map [ ("__init__", nn.Module_.Constructor);
                   ("forward", nn.Module_.Method "pixel_values" forward) ]).
End cls.
Arguments t R : clear implicits.
End SiglipVisionEmbeddings.

(** ** class SiglipMLP (lines 83-94) *)
Module SiglipMLP.
Section cls.
Context {R : Type} `{!Scalar R} {machine : Allocator}.

Record t := mk {
  config : SiglipVisionConfig.t R;
  fc1 : nn.Linear.t R;
  fc2 : nn.Linear.t R
}.

Definition __init__ (config : SiglipVisionConfig.t R) : result t :=
  load_global "super";;
  load_global "nn";;
  fc1 ← nn.Linear.__init__ "fc1"
          (SiglipVisionConfig.hidden_size config)
          (SiglipVisionConfig.intermediate_size config);
  load_global "nn";;
  fc2 ← nn.Linear.__init__ "fc2"
          (SiglipVisionConfig.intermediate_size config)
          (SiglipVisionConfig.hidden_size config);
  Ok (mk config fc1 fc2).

Definition forward (self : t) (hidden_states : Tensor R)
    : result (Tensor R) :=
  hidden_states ← nn.Linear.forward (fc1 self) hidden_states;
  load_global "nn";;
  hidden_states ← nn.functional.gelu hidden_states "tanh";
  hidden_states ← nn.Linear.forward (fc2 self) hidden_states;
  Ok hidden_states.

Definition class_ : nn.Module_.class t :=
  nn.Module_.mkClass "SiglipMLP"
    (list_to_map [ ("__init__", nn.Module_.Constructor);
                   ("forward", nn.Module_.Method "hidden_states" forward) ]).
End cls.
Arguments t R : clear implicits.
End SiglipMLP.

(** ** class SiglipEncoderLayer (lines 97-119) *)
Module SiglipEncoderLayer.
Section cls.
Context {R : Type} `{!Scalar R} {machine : Allocator}.

(** An attention module: called with one tensor, it returns a tuple. *)
Definition Attention : Type := Callable (Tensor R) (list (Tensor R)).

(** No statement of the file binds the name [SiglipAttention].  Were it
    bound when [__init__] runs, calling it with a config would construct
    some attention module or raise. *)
Context (SiglipAttention : SiglipVisionConfig.t R → result Attention).

Record t := mk {
  config : SiglipVisionConfig.t R;
  embed_dim : Z;
  self_attention : Attention;
  layer_norm1 : nn.LayerNorm.t R;
  mlp : SiglipMLP.t R;
  layer_norm2 : nn.LayerNorm.t R
}.

Definition __init__ (config : SiglipVisionConfig.t R) : result t :=
  load_global "super";;
  let embed_dim := SiglipVisionConfig.hidden_size config in
  load_global "SiglipAttention";;
  self_attention ← SiglipAttention config;
  load_global "nn";;
  layer_norm1 ← nn.LayerNorm.__init__ embed_dim
                  (SiglipVisionConfig.layer_norm_eps config);
  load_global "SiglipMLP";;
  mlp ← SiglipMLP.__init__ config;
  load_global "nn";;
  layer_norm2 ← nn.LayerNorm.__init__ embed_dim
                  (SiglipVisionConfig.layer_norm_eps config);
  Ok (mk config embed_dim self_attention layer_norm1 mlp layer_norm2).

Definition forward (self : t) (hidden_states : Tensor R)
    : result (Tensor R) :=
  let residual := hidden_states in
  hidden_states ← nn.LayerNorm.forward (layer_norm1 self) hidden_states;
  attended ← self_attention self [] [("hidden_states", hidden_states)];
  '(hidden_states, _) ← unpack2 attended;
  hidden_states ← add residual hidden_states;
  let residual := hidden_states in
  hidden_states ← nn.LayerNorm.forward (layer_norm2 self) hidden_states;
  hidden_states ← nn.Module_.__call__ SiglipMLP.class_ (mlp self)
                    [hidden_states] [];
  hidden_states ← add residual hidden_states;
  Ok hidden_states.

Definition class_ : nn.Module_.class t :=
  nn.Module_.mkClass "SiglipEncoderLayer"
    (list_to_map [ ("__init__", nn.Module_.Constructor);
                   ("forward", nn.Module_.Method "hidden_states" forward) ]).
End cls.
Arguments t R : clear implicits.
Arguments Attention R : clear implicits.
End SiglipEncoderLayer.

(** ** class SiglipVisionTransformer (lines 121-141) *)
Module SiglipVisionTransformer.
Section cls.
Context {R : Type} `{!Scalar R} {machine : Allocator}.

(** An encoder: called with a tensor, it returns a tensor. *)
Definition Encoder : Type := Callable (Tensor R) (Tensor R).

(** No statement of the file binds the name [SiglipEncoder] either. *)
Context (SiglipEncoder : SiglipVisionConfig.t R → result Encoder).

Record t := mk {
  config : SiglipVisionConfig.t R;
  embeddings : SiglipVisionEmbeddings.t R;
  encoder : Encoder;
  post_layernorm : nn.LayerNorm.t R
}.

Definition __init__ (config : SiglipVisionConfig.t R) : result t :=
  load_global "super";;
  let embed_dim := SiglipVisionConfig.hidden_size config in
  load_global "SiglipVisionEmbeddings";;
  embeddings ← SiglipVisionEmbeddings.__init__ config;
  load_global "SiglipEncoder";;
  encoder ← SiglipEncoder config;
  load_global "nn";;
  post_layernorm ← nn.LayerNorm.__init__ embed_dim
                     (SiglipVisionConfig.layer_norm_eps config);
  Ok (mk config embeddings encoder post_layernorm).

Definition forward (self : t) (pixel_values : Tensor R)
    : result (Tensor R) :=
  hidden_states ← nn.Module_.__call__ SiglipVisionEmbeddings.class_
                    (embeddings self) [pixel_values] [];
  last_hidden_state ← nn.Module_.__call__ SiglipVisionEmbeddings.class_
                        (embeddings self) [] [("input_embeds", hidden_states)];
  last_hidden_state ← nn.LayerNorm.forward (post_layernorm self)
                        last_hidden_state;
  Ok last_hidden_state.

Definition class_ : nn.Module_.class t :=
  nn.Module_.mkClass "SiglipVisionTransformer"
    (list_to_map [ ("__init__", nn.Module_.Constructor);
                   ("forward", nn.Module_.Method "pixel_values" forward) ]).
End cls.
Arguments t R : clear implicits.
Arguments Encoder R : clear implicits.
End SiglipVisionTransformer.

(** ** class SiglipVisionModel (lines 143-152) *)
Module SiglipVisionModel.
Section cls.
Context {R : Type} `{!Scalar R} {machine : Allocator}.
Context (SiglipEncoder :
           SiglipVisionConfig.t R → result (SiglipVisionTransformer.Encoder R)).

Record t := mk {
  config : SiglipVisionConfig.t R;
  vision_model : SiglipVisionTransformer.t R
}.

Definition __init__ (config : SiglipVisionConfig.t R) : result t :=
  load_global "super";;
  load_global "SiglipVisionTransformer";;
  vision_model ← SiglipVisionTransformer.__init__ SiglipEncoder config;
  Ok (mk config vision_model).

(** The method is spelled [forwrd] in the file. *)
Definition forwrd (self : t) (pixel_values : Tensor R)
    : result (Tensor R) :=
  nn.Module_.__call__ SiglipVisionTransformer.class_ (vision_model self)
    [] [("pixel_values", pixel_values)].

Definition class_ : nn.Module_.class t :=
  nn.Module_.mkClass "SiglipVisionModel"
    (list_to_map [ ("__init__", nn.Module_.Constructor);
                   ("forwrd", nn.Module_.Method "pixel_values" forwrd) ]).
End cls.
Arguments t R : clear implicits.
End SiglipVisionModel.


(** ** The architecture as the specification words it

    Section 2 of the specification describes the model as a composition of
    layers.  The definitions of this module follow those sentences, not the
    file; the theorems further down compare them with the methods above. *)
Module Spec.
Section architecture.
Context {R : Type} `{!Scalar R} {machine : Allocator}.

(** "pre-norm -> sub-block -> residual add": the input is normalized, the
    sub-block is applied to the normalized value, and the input is added
    to what the sub-block returns. *)
Definition pre_norm_residual (norm sub_block : Tensor R → result (Tensor R))
    (x : Tensor R) : result (Tensor R) :=
  normed ← norm x;
  y ← sub_block normed;
  add x y.


(** "feed-forward (two linear layers with a GELU nonlinearity)", the GELU
    "configured with a tanh-based approximation". *)
Definition feed_forward (fc1 fc2 : nn.Linear.t R) (x : Tensor R)
    : result (Tensor R) :=
  h ← nn.Linear.forward fc1 x;
  a ← nn.functional.gelu h "tanh";
  nn.Linear.forward fc2 a.

(** The hidden states a self-attention module returns for [x]: the first
    component of the pair it is unpacked into. *)
Definition attend (attention : SiglipEncoderLayer.Attention R) (x : Tensor R)
    : result (Tensor R) :=
  out ← attention [] [("hidden_states", x)];
  fst <$> unpack2 out.

(** "each: pre-norm -> self-attention -> residual add -> pre-norm ->
    feed-forward -> residual add" *)
Definition encoder_layer (self : SiglipEncoderLayer.t R) (x : Tensor R)
    : result (Tensor R) :=
  attended ←
    pre_norm_residual
      (nn.LayerNorm.forward (SiglipEncoderLayer.layer_norm1 self))
      (attend (SiglipEncoderLayer.self_attention self)) x;
  pre_norm_residual
    (nn.LayerNorm.forward (SiglipEncoderLayer.layer_norm2 self))
    (feed_forward (SiglipMLP.fc1 (SiglipEncoderLayer.mlp self))
                  (SiglipMLP.fc2 (SiglipEncoderLayer.mlp self)))
    attended.

(** "patch embedding, a stack of transformer encoder layers, and a final
    normalization", in this order. *)
Definition vision_transformer (self : SiglipVisionTransformer.t R)
    (pixel_values : Tensor R) : result (Tensor R) :=
  embedded ← SiglipVisionEmbeddings.forward
               (SiglipVisionTransformer.embeddings self) pixel_values;
  encoded ← SiglipVisionTransformer.encoder self [embedded] [];
  nn.LayerNorm.forward (SiglipVisionTransformer.post_layernorm self) encoded.

(** "a learned per-position vector added to each patch embedding": at every
    index [[b; i; d]] of the result, the value is the patch embedding at
    [[b; i; d]] plus entry [d] of row [i] of the table, and row [i] exists. *)
Definition adds_own_position (self : SiglipVisionEmbeddings.t R)
    (patches out : Tensor R) : Prop :=
  ∀ b i d : nat,
    Forall2 lt [b; i; d] (shape out) →
    Z.of_nat i < nn.Embedding.num_embeddings
                   (SiglipVisionEmbeddings.position_embedding self) ∧
    elem out [b; i; d] =
      Radd (elem patches [b; i; d])
           (elem (nn.Embedding.weight
                    (SiglipVisionEmbeddings.position_embedding self)) [i; d]).
End architecture.
End Spec.

(** ** Concrete scalars and inputs, for evaluation *)
Module Example.

(** Integers in place of floats.  GELU and the normalization are stand-ins:
    what is evaluated below are shapes, indices and exceptions. *)
#[global] Instance Z_scalar : Scalar Z := {|
  Rzero := 0;
  Rone := 1;
  R1e_6 := 0;
  Radd := Z.add;
  Rmul := Z.mul;
  Rsum := foldr Z.add 0;
  Rgelu := λ _ x, x;
  Rnormalize := λ _ row i, default 0 (row !! i);
  Rinit := λ _ idx, 1 + Z.of_nat (foldr Nat.add 0%nat idx)
|}.

(** A machine that creates the tensors of at most [2 ^ 32] entries. *)
#[global] Instance example_machine : Allocator :=
  λ dims, if decide (foldr Z.mul 1 dims ≤ 2 ^ 32) then None
          else Some (RuntimeError "not enough memory").

(** The value of a computation that returns. *)
Definition value_of {A : Type} (m : result A)
    : if returns m then A else unit :=
  match m with Ok a => a | Raise _ => () end.

(** [SiglipVisionConfig()]: every argument at its default. *)
Definition default_config : SiglipVisionConfig.t Z :=
  value_of (SiglipVisionConfig.__init__
              None None None None None None None None None None).

(** [SiglipVisionConfig(hidden_size=2, intermediate_size=3, num_channels=1,
    image_size=4, patch_size=2)]: four patches of 2 x 2 pixels. *)
Definition small_config : SiglipVisionConfig.t Z :=
  value_of (SiglipVisionConfig.__init__
              (Some 2) (Some 3) None None (Some 1) (Some 4) (Some 2)
              None None None).

(** [SiglipVisionConfig(hidden_size=2, num_channels=1, image_size=2,
    patch_size=2)]: the image is one patch, the table has one row. *)
Definition one_patch_config : SiglipVisionConfig.t Z :=
  value_of (SiglipVisionConfig.__init__
              (Some 2) None None None (Some 1) (Some 2) (Some 2)
              None None None).

(** [SiglipVisionConfig(patch_size=0)] *)
Definition zero_patch_config : SiglipVisionConfig.t Z :=
  value_of (SiglipVisionConfig.__init__
              None None None None None None (Some 0) None None None).

(** An image batch of the given shape; pixel [idx] holds the sum of its
    coordinates. *)
Definition image (dims : list nat) : Tensor Z :=
  mkTensor dims (λ idx, Z.of_nat (foldr Nat.add 0%nat idx)).

Definition default_embeddings : SiglipVisionEmbeddings.t Z :=
  value_of (SiglipVisionEmbeddings.__init__ default_config).
Definition small_embeddings : SiglipVisionEmbeddings.t Z :=
  value_of (SiglipVisionEmbeddings.__init__ small_config).
Definition one_patch_embeddings : SiglipVisionEmbeddings.t Z :=
  value_of (SiglipVisionEmbeddings.__init__ one_patch_config).
Definition small_mlp : SiglipMLP.t Z :=
  value_of (SiglipMLP.__init__ small_config).

(** An encoder that hands its input back, and a transformer object around
    it.  [SiglipVisionTransformer.__init__] cannot build one (the name
    [SiglipEncoder] is unbound); the attributes are assigned directly. *)
Definition identity_encoder : SiglipVisionTransformer.Encoder Z :=
  λ args _, match args with
            | [x] => Ok x
            | _ => Raise (TypeError TooManyPositional)
            end.

Definition default_transformer : SiglipVisionTransformer.t Z :=
  SiglipVisionTransformer.mk default_config default_embeddings
    identity_encoder
    (value_of (nn.LayerNorm.__init__ 768 (R1e_6 : Z))).

(** A batch of two 4 x 4 images under [small_config]. *)
Definition small_input : Tensor Z := image [2; 1; 4; 4]%nat.

(** One 4 x 2 image under [one_patch_config]: two patches, while the table
    has one row. *)
Definition two_patch_input : Tensor Z := image [1; 1; 4; 2]%nat.
Definition two_patch_patches : Tensor Z :=
  value_of (patch_embed ←
              nn.Conv2d.forward
                (SiglipVisionEmbeddings.patch_embedding one_patch_embeddings)
                two_patch_input;
            flatten 2 patch_embed ≫= transpose 1 2).
Definition two_patch_output : Tensor Z :=
  value_of (SiglipVisionEmbeddings.forward one_patch_embeddings
              two_patch_input).

(** Configs at the edge: [small_config] with [hidden_size=0]; with
    [num_channels=0]; with [num_channels=0] and [hidden_size=1]. *)
Definition no_hidden_config : SiglipVisionConfig.t Z :=
  value_of (SiglipVisionConfig.__init__
              (Some 0) (Some 3) None None (Some 1) (Some 4) (Some 2)
              None None None).
Definition no_channel_config : SiglipVisionConfig.t Z :=
  value_of (SiglipVisionConfig.__init__
              (Some 2) (Some 3) None None (Some 0) (Some 4) (Some 2)
              None None None).
Definition no_channel_one_config : SiglipVisionConfig.t Z :=
  value_of (SiglipVisionConfig.__init__
              (Some 1) (Some 3) None None (Some 0) (Some 4) (Some 2)
              None None None).
Definition no_hidden_embeddings : SiglipVisionEmbeddings.t Z :=
  value_of (SiglipVisionEmbeddings.__init__ no_hidden_config).
Definition no_channel_embeddings : SiglipVisionEmbeddings.t Z :=
  value_of (SiglipVisionEmbeddings.__init__ no_channel_config).
Definition no_channel_one_embeddings : SiglipVisionEmbeddings.t Z :=
  value_of (SiglipVisionEmbeddings.__init__ no_channel_one_config).

(** [small_input] with every pixel outside patch 0 of each image set to
    zero: the two inputs agree on rows 0-1, columns 0-1. *)
Definition small_input_patch0 : Tensor Z :=
  mkTensor [2; 1; 4; 4]%nat
    (λ idx, match idx with
            | [_; _; y; z] =>
                if ((y <? 2) && (z <? 2))%nat then elem small_input idx else 0
            | _ => 0
            end).

(** Hidden states for one image of four positions under [small_config],
    and the same with every row but the first set to zero. *)
Definition small_hidden_states : Tensor Z := image [1; 4; 2]%nat.
Definition small_hidden_states_row0 : Tensor Z :=
  mkTensor [1; 4; 2]%nat
    (λ idx, match idx with
            | [0%nat; 0%nat; _] => elem small_hidden_states idx
            | _ => 0
            end).

(** An attention module that hands back what it is given, twice, and an
    encoder layer around it.  [SiglipEncoderLayer.__init__] cannot build
    one (the name [SiglipAttention] is unbound); the attributes are
    assigned directly. *)
Definition echo_attention : SiglipEncoderLayer.Attention Z :=
  λ _ kwargs, match kwargs with
              | [(_, x)] => Ok [x; x]
              | _ => Raise (TypeError TooManyPositional)
              end.

Definition small_encoder_layer : SiglipEncoderLayer.t Z :=
  SiglipEncoderLayer.mk small_config 2 echo_attention
    (value_of (nn.LayerNorm.__init__ 2 (R1e_6 : Z)))
    small_mlp
    (value_of (nn.LayerNorm.__init__ 2 (R1e_6 : Z))).

End Example.


(** * Properties *)

(** The layers stay folded when a goal is simplified. *)
#[global] Arguments nn.functional.gelu : simpl never.
#[global] Arguments nn.Linear.forward : simpl never.
#[global] Arguments nn.LayerNorm.forward : simpl never.
#[global] Arguments nn.Conv2d.forward : simpl never.
#[global] Arguments nn.Conv2d.forward_batched : simpl never.
#[global] Arguments nn.Embedding.forward : simpl never.
#[global] Arguments add : simpl never.
#[global] Arguments flatten : simpl never.
#[global] Arguments transpose : simpl never.
#[global] Arguments arange : simpl never.
#[global] Arguments expand : simpl never.
#[global] Arguments empty : simpl never.
#[global] Arguments full : simpl never.
#[global] Arguments floordiv : simpl never.
#[global] Arguments nn.Conv2d.__init__ : simpl never.
#[global] Arguments nn.Embedding.__init__ : simpl never.
#[global] Arguments nn.Linear.__init__ : simpl never.
#[global] Arguments nn.LayerNorm.__init__ : simpl never.

(** ** Name resolution *)

Lemma load_global_super : load_global "super" = Ok ().
Proof. reflexivity. Qed.

Lemma load_global_nn : load_global "nn" = Ok ().
Proof. reflexivity. Qed.

Lemma load_global_torch : load_global "torch" = Ok ().
Proof. reflexivity. Qed.

(** The six class statements bind their names. *)
Lemma load_global_own_class (name : string) :
  name ∈ [ "SiglipVisionConfig"; "SiglipVisionEmbeddings"; "SiglipMLP";
           "SiglipEncoderLayer"; "SiglipVisionTransformer";
           "SiglipVisionModel" ] →
  load_global name = Ok ().
Proof.
  rewrite !elem_of_cons, elem_of_nil.
  intros [->|[->|[->|[->|[->|[->|[]]]]]]]; reflexivity.
Qed.

Lemma load_global_SiglipVisionEmbeddings :
  load_global "SiglipVisionEmbeddings" = Ok ().
Proof. apply load_global_own_class. repeat constructor. Qed.

Lemma load_global_SiglipMLP : load_global "SiglipMLP" = Ok ().
Proof. apply load_global_own_class. repeat constructor. Qed.

Lemma load_global_SiglipVisionTransformer :
  load_global "SiglipVisionTransformer" = Ok ().
Proof. apply load_global_own_class. repeat constructor. Qed.

(** Neither of the two names the file leaves unbound is a builtin. *)
Lemma not_builtin_SiglipAttention : "SiglipAttention" ∉ builtins.
Proof. by apply (bool_decide_unpack _). Qed.

Lemma not_builtin_SiglipEncoder : "SiglipEncoder" ∉ builtins.
Proof. by apply (bool_decide_unpack _). Qed.

(** A name that neither the module nor the builtins know is unbound. *)
Lemma load_global_unbound name :
  module_globals !! name = None → name ∉ builtins →
  load_global name = Raise (NameError name).
Proof.
  intros Hmod Hbuiltin. unfold load_global. rewrite Hmod.
  by destruct (decide (name ∈ builtins)).
Qed.

#[global] Arguments load_global : simpl never.

(** ** The result monad *)

Lemma bind_Ok_inv {A B} (m : result A) (f : A → result B) (b : B) :
  m ≫= f = Ok b → ∃ a, m = Ok a ∧ f a = Ok b.
Proof. destruct m as [a|e]; [by exists a | discriminate]. Qed.

Lemma fmap_Ok_inv {A B} (m : result A) (f : A → B) (b : B) :
  f <$> m = Ok b → ∃ a, m = Ok a ∧ f a = b.
Proof. destruct m as [a|e]; [intros [= <-]; by exists a | discriminate]. Qed.

Lemma returns_true_Ok {A} (m : result A) : returns m = true → ∃ a, m = Ok a.
Proof. destruct m as [a|e]; [by exists a | discriminate]. Qed.

(** Splits a hypothesis [m ≫= f = Ok b] into its two steps. *)
Ltac step_ok H :=
  let a := fresh "v" in
  let Ha := fresh "H" a in
  apply bind_Ok_inv in H as (a & Ha & H).

(** ** Calls *)

(** One positional argument binds the parameter, whatever its name. *)
Lemma bind_arguments_positional {V} (param : string) (v : V) :
  bind_arguments param [v] [] = Ok v.
Proof. reflexivity. Qed.

(** One keyword argument binds the parameter of that name and no other. *)
Lemma bind_arguments_keyword {V} (param k : string) (v : V) :
  bind_arguments param [] [(k, v)] =
    if decide (k = param) then Ok v
    else Raise (TypeError (UnexpectedKeyword k)).
Proof. unfold bind_arguments; simpl. by destruct (decide (k = param)). Qed.

Section dispatch.
Context {R : Type} `{!Scalar R} {machine : Allocator}.

Lemma embeddings_forward_member :
  nn.Module_.dict SiglipVisionEmbeddings.class_ !! "forward" =
    Some (nn.Module_.Method "pixel_values" SiglipVisionEmbeddings.forward).
Proof. reflexivity. Qed.

Lemma mlp_forward_member :
  nn.Module_.dict SiglipMLP.class_ !! "forward" =
    Some (nn.Module_.Method "hidden_states" SiglipMLP.forward).
Proof. reflexivity. Qed.

Lemma vision_transformer_forward_member :
  nn.Module_.dict SiglipVisionTransformer.class_ !! "forward" =
    Some (nn.Module_.Method "pixel_values" SiglipVisionTransformer.forward).
Proof. reflexivity. Qed.

(** [self.embeddings(x)] runs [SiglipVisionEmbeddings.forward]. *)
Lemma call_embeddings_positional (self : SiglipVisionEmbeddings.t R) x :
  nn.Module_.__call__ SiglipVisionEmbeddings.class_ self [x] [] =
    SiglipVisionEmbeddings.forward self x.
Proof.
  unfold nn.Module_.__call__. rewrite embeddings_forward_member.
  by rewrite bind_arguments_positional.
Qed.

(** [self.embeddings(k=x)] runs it only for [k = "pixel_values"]. *)
Lemma call_embeddings_keyword (self : SiglipVisionEmbeddings.t R) k x :
  k ≠ "pixel_values" →
  nn.Module_.__call__ SiglipVisionEmbeddings.class_ self [] [(k, x)] =
    Raise (TypeError (UnexpectedKeyword k)).
Proof.
  intros Hk. unfold nn.Module_.__call__. rewrite embeddings_forward_member.
  rewrite bind_arguments_keyword. by destruct (decide (k = "pixel_values")).
Qed.

(** [self.mlp(x)] runs [SiglipMLP.forward]. *)
Lemma call_mlp_positional (self : SiglipMLP.t R) x :
  nn.Module_.__call__ SiglipMLP.class_ self [x] [] = SiglipMLP.forward self x.
Proof.
  unfold nn.Module_.__call__. rewrite mlp_forward_member.
  by rewrite bind_arguments_positional.
Qed.

End dispatch.

(** ** Construction: the two names no statement binds *)

Section construction.
Context {R : Type} `{!Scalar R} {machine : Allocator}.

Lemma load_global_SiglipAttention :
  load_global "SiglipAttention" = Raise (NameError "SiglipAttention").
Proof. apply load_global_unbound; [done | apply not_builtin_SiglipAttention]. Qed.

Lemma load_global_SiglipEncoder :
  load_global "SiglipEncoder" = Raise (NameError "SiglipEncoder").
Proof. apply load_global_unbound; [done | apply not_builtin_SiglipEncoder]. Qed.

(** C3.  No statement of the file binds [SiglipAttention] and it is no
    builtin, so for every config [SiglipEncoderLayer(config)] raises
    [NameError] for that name: the statements before line 102 cannot raise,
    and whatever the name would construct is never called. *)
Theorem encoder_layer_init_unbound_attention
    (SiglipAttention :
       SiglipVisionConfig.t R → result (SiglipEncoderLayer.Attention R))
    (config : SiglipVisionConfig.t R) :
  module_globals !! "SiglipAttention" = None ∧
  ("SiglipAttention" ∉ builtins) ∧
  SiglipEncoderLayer.__init__ SiglipAttention config =
    Raise (NameError "SiglipAttention").
Proof.
  split; [done|]. split; [apply not_builtin_SiglipAttention|].
  unfold SiglipEncoderLayer.__init__.
  by rewrite load_global_super, load_global_SiglipAttention.
Qed.

(** What [SiglipVisionTransformer(config)] does, for every config: line 131
    runs first, and line 132 is reached only if it returns. *)
Lemma vision_transformer_init_unfold
    (SiglipEncoder :
       SiglipVisionConfig.t R → result (SiglipVisionTransformer.Encoder R))
    (config : SiglipVisionConfig.t R) :
  SiglipVisionTransformer.__init__ SiglipEncoder config =
    match SiglipVisionEmbeddings.__init__ config with
    | Ok _ => Raise (NameError "SiglipEncoder")
    | Raise e => Raise e
    end.
Proof.
  unfold SiglipVisionTransformer.__init__.
  rewrite load_global_super; cbn.
  rewrite load_global_SiglipVisionEmbeddings; cbn.
  destruct (SiglipVisionEmbeddings.__init__ config) as [embeddings|e]; cbn;
    [|done].
  by rewrite load_global_SiglipEncoder.
Qed.

(** C9, amended.  [SiglipEncoder] is bound by no statement of the file.
    Constructing a [SiglipVisionTransformer] or a [SiglipVisionModel] first
    constructs the [SiglipVisionEmbeddings] (line 131): if that raises, its
    exception is the one the constructor raises; if it returns, the
    constructor raises [NameError] for [SiglipEncoder] at line 132.  In no
    case is an object constructed. *)
Theorem vision_transformer_init_raises
    (SiglipEncoder :
       SiglipVisionConfig.t R → result (SiglipVisionTransformer.Encoder R))
    (config : SiglipVisionConfig.t R) :
  let outcome {A} : result A :=
    match SiglipVisionEmbeddings.__init__ config with
    | Ok _ => Raise (NameError "SiglipEncoder")
    | Raise e => Raise e
    end in
  module_globals !! "SiglipEncoder" = None ∧
  ("SiglipEncoder" ∉ builtins) ∧
  SiglipVisionTransformer.__init__ SiglipEncoder config = outcome ∧
  SiglipVisionModel.__init__ SiglipEncoder config = outcome.
Proof.
  cbn. split; [done|]. split; [apply not_builtin_SiglipEncoder|]. split.
  - apply vision_transformer_init_unfold.
  - unfold SiglipVisionModel.__init__.
    rewrite load_global_super; cbn.
    rewrite load_global_SiglipVisionTransformer; cbn.
    rewrite vision_transformer_init_unfold.
    by destruct (SiglipVisionEmbeddings.__init__ config).
Qed.

End construction.

(** C9 as stated fails for [SiglipVisionConfig(patch_size=0)]: line 56
    divides by [patch_size], and the constructor raises
    [ZeroDivisionError] before it reaches the name [SiglipEncoder]. *)
Lemma vision_transformer_init_zero_patch_size :
  SiglipVisionTransformer.__init__
    (λ _, Ok Example.identity_encoder) Example.zero_patch_config =
    Raise ZeroDivisionError
  ∧ SiglipVisionModel.__init__
      (λ _, Ok Example.identity_encoder) Example.zero_patch_config =
      Raise ZeroDivisionError.
Proof. split; vm_compute; reflexivity. Qed.

(** ** Calling the modules *)

Section calls.
Context {R : Type} `{!Scalar R} {machine : Allocator}.

(** [SiglipMLP.forward] is the feed-forward block of the specification. *)
Lemma mlp_forward_feed_forward (self : SiglipMLP.t R) (x : Tensor R) :
  SiglipMLP.forward self x =
    Spec.feed_forward (SiglipMLP.fc1 self) (SiglipMLP.fc2 self) x.
Proof.
  unfold SiglipMLP.forward, Spec.feed_forward.
  destruct (nn.Linear.forward (SiglipMLP.fc1 self) x) as [h|e]; cbn; [|done].
  rewrite load_global_nn; cbn.
  destruct (nn.functional.gelu h "tanh") as [a|e]; cbn; [|done].
  by destruct (nn.Linear.forward (SiglipMLP.fc2 self) a).
Qed.

(** C5.  The class statement of [SiglipVisionModel] binds [__init__] and
    [forwrd] and no [forward].  Calling a model therefore runs the
    placeholder [forward] of [nn.Module], whatever the model's attributes
    and the arguments: [model(pixel_values)] raises [NotImplementedError],
    and no call returns, so the body of [forwrd], which calls
    [self.vision_model], is not run. *)
Theorem vision_model_call_misses_forwrd
    (self : SiglipVisionModel.t R) (pixel_values : Tensor R)
    (args : list (Tensor R)) (kwargs : list (string * Tensor R)) :
  dom (nn.Module_.dict (SiglipVisionModel.class_ (R:=R)))
    = {[ "__init__"; "forwrd" ]} ∧
  nn.Module_.dict SiglipVisionModel.class_ !! "forwrd" =
    Some (nn.Module_.Method "pixel_values" SiglipVisionModel.forwrd) ∧
  nn.Module_.dict (SiglipVisionModel.class_ (R:=R)) !! "forward" = None ∧
  nn.Module_.__call__ SiglipVisionModel.class_ self args kwargs =
    nn.Module_._forward_unimplemented "SiglipVisionModel" args kwargs ∧
  returns (nn.Module_.__call__ SiglipVisionModel.class_ self args kwargs)
    = false ∧
  nn.Module_.__call__ SiglipVisionModel.class_ self [pixel_values] [] =
    Raise (NotImplementedError "SiglipVisionModel").
Proof.
  split; [by apply (bool_decide_unpack _)|].
  repeat split; try reflexivity.
  unfold nn.Module_.__call__.
  change (nn.Module_.dict SiglipVisionModel.class_ !! "forward")
    with (@None (nn.Module_.member (R:=R) (SiglipVisionModel.t R))).
  unfold nn.Module_._forward_unimplemented.
  by destruct kwargs as [|[k v] rest].
Qed.

(** What [SiglipVisionTransformer.forward] does, for every object and
    input: line 137 runs first; line 138 is reached only if it returns, and
    then raises. *)
Lemma vision_transformer_forward_unfold
    (self : SiglipVisionTransformer.t R) (pixel_values : Tensor R) :
  SiglipVisionTransformer.forward self pixel_values =
    match SiglipVisionEmbeddings.forward
            (SiglipVisionTransformer.embeddings self) pixel_values with
    | Ok _ => Raise (TypeError (UnexpectedKeyword "input_embeds"))
    | Raise e => Raise e
    end.
Proof.
  unfold SiglipVisionTransformer.forward.
  rewrite call_embeddings_positional.
  destruct (SiglipVisionEmbeddings.forward _ pixel_values) as [h|e]; cbn;
    [|done].
  by rewrite call_embeddings_keyword.
Qed.

(** C2, amended.  For every object and every input,
    [SiglipVisionTransformer.forward] first calls the embedding layer on
    the input (line 137).  If that call raises, its exception is the one
    [forward] raises.  If it returns, the embedding layer is called again
    with the keyword [input_embeds] (line 138), which the one parameter
    [pixel_values] of [SiglipVisionEmbeddings.forward] does not match, and
    the call raises [TypeError].  Either way [forward] raises before the
    layer normalization of line 139. *)
Theorem vision_transformer_forward_raises
    (self : SiglipVisionTransformer.t R) (pixel_values : Tensor R) :
  SiglipVisionTransformer.forward self pixel_values =
    match nn.Module_.__call__ SiglipVisionEmbeddings.class_
            (SiglipVisionTransformer.embeddings self) [pixel_values] [] with
    | Ok hidden_states =>
        nn.Module_.__call__ SiglipVisionEmbeddings.class_
          (SiglipVisionTransformer.embeddings self)
          [] [("input_embeds", hidden_states)]
    | Raise e => Raise e
    end ∧
  (∀ hidden_states,
     nn.Module_.__call__ SiglipVisionEmbeddings.class_
       (SiglipVisionTransformer.embeddings self)
       [] [("input_embeds", hidden_states)] =
     Raise (TypeError (UnexpectedKeyword "input_embeds"))) ∧
  returns (SiglipVisionTransformer.forward self pixel_values) = false.
Proof.
  rewrite vision_transformer_forward_unfold, call_embeddings_positional.
  split; [|split].
  - destruct (SiglipVisionEmbeddings.forward _ pixel_values) as [h|e];
      [|done].
    by rewrite call_embeddings_keyword.
  - intros h. by rewrite call_embeddings_keyword.
  - by destruct (SiglipVisionEmbeddings.forward _ pixel_values).
Qed.

(** C4.  For every layer object and every input,
    [SiglipEncoderLayer.forward] is the encoder layer of the
    specification, down to the exception it raises when a step does.  It
    returns [out] exactly when these six steps return, each fed as shown:
    [layer_norm1] on the input; self-attention on the normalized value,
    of whose pair the first component is kept; the input added to it;
    [layer_norm2] on that sum; the MLP on the normalized sum; the sum
    added to what the MLP returns, which is [out]. *)
Theorem encoder_layer_forward_is_pre_norm_block
    (self : SiglipEncoderLayer.t R) (hidden_states : Tensor R) :
  SiglipEncoderLayer.forward self hidden_states =
    Spec.encoder_layer self hidden_states ∧
  ∀ out : Tensor R,
    SiglipEncoderLayer.forward self hidden_states = Ok out ↔
    ∃ normed attended ignored residual normed2 fed,
      nn.LayerNorm.forward (SiglipEncoderLayer.layer_norm1 self)
        hidden_states = Ok normed ∧
      SiglipEncoderLayer.self_attention self
        [] [("hidden_states", normed)] = Ok [attended; ignored] ∧
      add hidden_states attended = Ok residual ∧
      nn.LayerNorm.forward (SiglipEncoderLayer.layer_norm2 self)
        residual = Ok normed2 ∧
      SiglipMLP.forward (SiglipEncoderLayer.mlp self) normed2 = Ok fed ∧
      add residual fed = Ok out.
Proof.
  split.
  - unfold SiglipEncoderLayer.forward, Spec.encoder_layer,
      Spec.pre_norm_residual, Spec.attend.
    destruct (nn.LayerNorm.forward (SiglipEncoderLayer.layer_norm1 self)
                hidden_states) as [normed|e]; cbn; [|done].
    destruct (SiglipEncoderLayer.self_attention self [] _) as [out|e]; cbn;
      [|done].
    destruct (unpack2 out) as [[attended ignored]|e]; cbn; [|done].
    destruct (add hidden_states attended) as [residual|e]; cbn; [|done].
    destruct (nn.LayerNorm.forward (SiglipEncoderLayer.layer_norm2 self)
                residual) as [normed2|e]; cbn; [|done].
    rewrite call_mlp_positional, mlp_forward_feed_forward.
    destruct (Spec.feed_forward _ _ normed2) as [fed|e]; cbn; [|done].
    by destruct (add residual fed).
  - intros out. unfold SiglipEncoderLayer.forward. split.
    + intros Hfwd.
      step_ok Hfwd. rename v into normed, Hv into Hnorm.
      step_ok Hfwd. rename v into tuple, Hv into Hattn.
      step_ok Hfwd. destruct v as [attended ignored].
      destruct tuple as [|a [|b [|]]]; try discriminate.
      injection Hv as -> ->.
      step_ok Hfwd. rename v into residual, Hv into Hadd.
      step_ok Hfwd. rename v into normed2, Hv into Hnorm2.
      step_ok Hfwd. rename v into fed, Hv into Hmlp.
      rewrite call_mlp_positional in Hmlp.
      step_ok Hfwd. injection Hfwd as ->.
      by exists normed, attended, ignored, residual, normed2, fed.
    + intros (normed & attended & ignored & residual & normed2 & fed &
              Hnorm & Hattn & Hadd & Hnorm2 & Hmlp & Hout).
      rewrite Hnorm; cbn. rewrite Hattn; cbn.
      rewrite Hadd; cbn. rewrite Hnorm2; cbn.
      rewrite call_mlp_positional, Hmlp; cbn. by rewrite Hout.
Qed.
End calls.

(** C2 as stated fails for a batch of 32 x 32 images under the default
    config: the first call of the embedding layer raises (4 patches do not
    broadcast against 196 positions), the second call is never made, and
    the exception is a [RuntimeError], not a [TypeError]. *)
Lemma vision_transformer_forward_first_call_raises :
  SiglipVisionTransformer.forward Example.default_transformer
    (Example.image [1; 3; 32; 32]%nat) =
    Raise (RuntimeError "broadcast: sizes differ at a non-singleton dimension").
Proof. vm_compute. reflexivity. Qed.

(** C1 fails on the code.  Under the default config and a batch of one
    224 x 224 image, embedding, encoder and final normalization compose to
    a value of shape [[1, 196, 768]], while [forward] raises [TypeError] at
    line 138 and calls neither the encoder nor the normalization. *)
Lemma vision_transformer_forward_skips_encoder :
  shape <$> Spec.vision_transformer Example.default_transformer
              (Example.image [1; 3; 224; 224]%nat) =
    Ok [1; 196; 768]%nat
  ∧ SiglipVisionTransformer.forward Example.default_transformer
      (Example.image [1; 3; 224; 224]%nat) =
      Raise (TypeError (UnexpectedKeyword "input_embeds")).
Proof. split; vm_compute; reflexivity. Qed.

(** ** The layers on shapes and indices *)

Section tensors.
Context {R : Type} `{!Scalar R} {machine : Allocator}.

Lemma empty_Ok_inv name dims (t : Tensor R) :
  empty name dims = Ok t →
  Forall (λ d, 0 ≤ d) dims ∧ t = mkTensor (Z.to_nat <$> dims) (Rinit name).
Proof.
  unfold empty. destruct (decide (Forall (λ d, 0 ≤ d) dims)); [|discriminate].
  destruct (alloc_error dims); [discriminate|].
  by intros [= <-].
Qed.

Lemma empty_Ok_allocates name dims (t : Tensor R) :
  empty name dims = Ok t → alloc_error dims = None.
Proof.
  unfold empty. destruct (decide (Forall (λ d, 0 ≤ d) dims)); [|discriminate].
  by destruct (alloc_error dims).
Qed.

Lemma full_Ok_inv value dims (t : Tensor R) :
  full value dims = Ok t →
  Forall (λ d, 0 ≤ d) dims ∧ t = mkTensor (Z.to_nat <$> dims) (λ _, value).
Proof.
  unfold full. destruct (decide (Forall (λ d, 0 ≤ d) dims)); [|discriminate].
  destruct (alloc_error dims); [discriminate|].
  by intros [= <-].
Qed.

Lemma linear_init_Ok_inv path n m (l : nn.Linear.t R) :
  nn.Linear.__init__ path n m = Ok l →
  0 ≤ n ∧ 0 ≤ m ∧
  nn.Linear.in_features l = n ∧ nn.Linear.out_features l = m ∧
  shape (nn.Linear.weight l) = [Z.to_nat m; Z.to_nat n] ∧
  shape (nn.Linear.bias l) = [Z.to_nat m].
Proof.
  unfold nn.Linear.__init__. intros H.
  step_ok H. step_ok H. injection H as <-.
  apply empty_Ok_inv in Hv as [Hdims ->], Hv0 as [_ ->].
  apply Forall_cons in Hdims as [? Hdims]. apply Forall_cons in Hdims as [? _].
  done.
Qed.

Lemma linear_forward_Ok_inv (l : nn.Linear.t R) (x y : Tensor R) :
  nn.Linear.forward l x = Ok y →
  ∃ lead n,
    shape x = lead ++ [n] ∧ Z.of_nat n = nn.Linear.in_features l ∧
    shape y = lead ++ [Z.to_nat (nn.Linear.out_features l)] ∧
    ∀ pre o, length pre = length lead →
      elem y (pre ++ [o]) =
        Radd (Rsum ((λ i, Rmul (elem x (pre ++ [i]))
                               (elem (nn.Linear.weight l) [o; i]))
                    <$> seq 0 n))
             (elem (nn.Linear.bias l) [o]).
Proof.
  unfold nn.Linear.forward. intros H.
  destruct (last (shape x)) as [n|] eqn:Hlast; [|discriminate].
  apply last_Some in Hlast as [lead Hshape].
  destruct (decide (Z.of_nat n = nn.Linear.in_features l)) as [Hn|];
    [|discriminate].
  injection H as <-. exists lead, n. rewrite Hshape.
  rewrite length_app; simpl.
  replace (length lead + 1 - 1)%nat with (length lead) by lia.
  rewrite take_app_length. repeat split; [done|].
  intros pre o Hpre. cbn.
  rewrite <- Hpre, take_app_length, list_lookup_middle by done.
  done.
Qed.


Lemma gelu_tanh_Ok (x : Tensor R) :
  nn.functional.gelu x "tanh" =
    Ok (mkTensor (shape x) (λ idx, Rgelu "tanh" (elem x idx))).
Proof. reflexivity. Qed.


Lemma elem_of_indices (s idx : list nat) :
  idx ∈ indices s ↔ Forall2 lt idx s.
Proof.
  revert idx. induction s as [|d s IH]; intros idx; cbn.
  - rewrite list_elem_of_singleton. split; [intros ->; constructor|].
    by intros ->%Forall2_nil_inv_r.
  - rewrite list_elem_of_bind. split.
    + intros (i & Hidx & Hi). apply list_elem_of_fmap in Hidx as (tl & -> & Htl).
      apply elem_of_seq in Hi. constructor; [lia|]. by apply IH.
    + intros (i & tl & Hi & Htl & ->)%Forall2_cons_inv_r.
      exists i. split; [|apply elem_of_seq; lia].
      apply list_elem_of_fmap. exists tl. split; [done|]. by apply IH.
Qed.

Lemma conv2d_init_Ok_inv path cin cout k s padding (conv : nn.Conv2d.t R) :
  nn.Conv2d.__init__ path cin cout k s padding = Ok conv →
  0 ≤ cout ∧ 0 ≤ cin ∧ 0 ≤ k ∧
  conv = nn.Conv2d.mk cin cout k s padding
           (mkTensor (Z.to_nat <$> [cout; cin; k; k])
                     (Rinit (path +:+ ".weight")))
           (mkTensor [Z.to_nat cout] (Rinit (path +:+ ".bias"))).
Proof.
  unfold nn.Conv2d.__init__. intros H.
  repeat case_decide; try discriminate.
  step_ok H. step_ok H. injection H as <-.
  apply empty_Ok_inv in Hv as [Hdims ->], Hv0 as [_ ->].
  apply Forall_cons in Hdims as [? Hdims]. apply Forall_cons in Hdims as [? Hdims].
  apply Forall_cons in Hdims as [? _]. done.
Qed.

Lemma embedding_init_Ok_inv path n d (emb : nn.Embedding.t R) :
  nn.Embedding.__init__ path n d = Ok emb →
  0 ≤ n ∧ 0 ≤ d ∧
  emb = nn.Embedding.mk n d
          (mkTensor [Z.to_nat n; Z.to_nat d] (Rinit (path +:+ ".weight"))).
Proof.
  unfold nn.Embedding.__init__. intros H.
  step_ok H. injection H as <-.
  apply empty_Ok_inv in Hv as [Hdims ->].
  apply Forall_cons in Hdims as [? Hdims]. apply Forall_cons in Hdims as [? _].
  done.
Qed.

(** [torch.arange(n).expand((1, -1))] *)
Lemma arange_expand_Ok_inv (n : Z) (ids : Tensor Z) :
  arange n ≫= expand [1; -1] = Ok ids →
  0 ≤ n ∧ shape ids = [1%nat; Z.to_nat n] ∧
  ∀ i, (i < Z.to_nat n)%nat → elem ids [0%nat; i] = Z.of_nat i.
Proof.
  unfold arange. case_decide; [cbn; discriminate|].
  destruct (alloc_error [n]); [cbn; discriminate|]. cbn.
  unfold expand, broadcast_index; cbn.
  repeat case_decide; try lia; cbn; intros [= <-]; cbn.
  all: split; [lia|]; split; [done|]; intros i Hi; cbn; try done.
  f_equal. lia.
Qed.

Lemma embeddings_init_Ok_inv
    (config : SiglipVisionConfig.t R) (self : SiglipVisionEmbeddings.t R) :
  SiglipVisionEmbeddings.__init__ config = Ok self →
  let hidden := SiglipVisionConfig.hidden_size config in
  let patch := SiglipVisionConfig.patch_size config in
  let positions :=
    (SiglipVisionConfig.image_size config `div` patch) ^ 2 in
  0 < patch ∧ 0 ≤ hidden ∧ 0 ≤ SiglipVisionConfig.num_channels config ∧
  0 ≤ positions ∧
  ∃ ids,
    shape ids = [1%nat; Z.to_nat positions] ∧
    (∀ i, (i < Z.to_nat positions)%nat → elem ids [0%nat; i] = Z.of_nat i) ∧
    self =
      SiglipVisionEmbeddings.mk config hidden
        (SiglipVisionConfig.image_size config) patch
        (nn.Conv2d.mk (SiglipVisionConfig.num_channels config) hidden
           patch patch "valid"
           (mkTensor (Z.to_nat <$> [hidden;
                                     SiglipVisionConfig.num_channels config;
                                     patch; patch])
                     (Rinit "patch_embedding.weight"))
           (mkTensor [Z.to_nat hidden] (Rinit "patch_embedding.bias")))
        positions positions
        (nn.Embedding.mk positions hidden
           (mkTensor [Z.to_nat positions; Z.to_nat hidden]
                     (Rinit "position_embedding.weight")))
        ids.
Proof.
  unfold SiglipVisionEmbeddings.__init__. intros H.
  rewrite load_global_super in H; cbn in H.
  rewrite load_global_nn in H; cbn in H.
  step_ok H. apply conv2d_init_Ok_inv in Hv as (Hhid & Hch & Hpatch & ->).
  step_ok H. unfold floordiv in Hv.
  destruct (decide (SiglipVisionConfig.patch_size config = 0)); [discriminate|].
  injection Hv as <-. cbn in H.
  step_ok H. apply embedding_init_Ok_inv in Hv as (Hpos & _ & ->).
  rewrite load_global_torch in H; cbn in H.
  step_ok H. step_ok H. injection H as <-.
  destruct (arange_expand_Ok_inv
              ((SiglipVisionConfig.image_size config
                `div` SiglipVisionConfig.patch_size config) ^ 2) v0)
    as (_ & Hshape & Hids); [by rewrite Hv|].
  cbn. repeat split; try done; try lia.
  by exists v0.
Qed.

Lemma elem_of_window (k s i y : nat) :
  y ∈ nn.Conv2d.window k s i ↔ (i * s ≤ y < i * s + k)%nat.
Proof.
  unfold nn.Conv2d.window. rewrite list_elem_of_fmap. split.
  - intros (u & -> & Hu%elem_of_seq). lia.
  - intros Hy. exists (y - i * s)%nat. split; [lia|]. apply elem_of_seq. lia.
Qed.

Lemma window_length (k s i : nat) : length (nn.Conv2d.window k s i) = k.
Proof. unfold nn.Conv2d.window. by rewrite length_fmap, length_seq. Qed.

(** With the stride equal to the size of the kernel, a row lies under the
    kernel for one output row only. *)
Lemma window_disjoint (k i i' y : nat) :
  y ∈ nn.Conv2d.window k k i → y ∈ nn.Conv2d.window k k i' → i = i'.
Proof. rewrite !elem_of_window. intros Hi Hi'. nia. Qed.

Lemma list_bind_ext_elem {A B} (f g : A → list B) (l : list A) :
  (∀ a, a ∈ l → f a = g a) → l ≫= f = l ≫= g.
Proof.
  induction l as [|a l IH]; intros Hfg; csimpl; [done|].
  rewrite (Hfg a) by left. f_equal. apply IH. intros a' Ha'. apply Hfg. by right.
Qed.

(** On a 4-D input the layer runs the batch as it is. *)
Lemma conv2d_forward_4d (conv : nn.Conv2d.t R) (x : Tensor R) (B C H W : nat) :
  shape x = [B; C; H; W] →
  nn.Conv2d.forward conv x = nn.Conv2d.forward_batched conv x.
Proof. intros Hx. unfold nn.Conv2d.forward. by rewrite Hx. Qed.

Lemma conv2d_forward_batched_local
    (conv : nn.Conv2d.t R) (x x' out out' : Tensor R) (b o i j : nat) :
  nn.Conv2d.padding conv = "valid" →
  shape x = shape x' →
  nn.Conv2d.forward_batched conv x = Ok out →
  nn.Conv2d.forward_batched conv x' = Ok out' →
  (∀ c y z,
     y ∈ nn.Conv2d.window (Z.to_nat (nn.Conv2d.kernel_size conv))
                          (Z.to_nat (nn.Conv2d.stride conv)) i →
     z ∈ nn.Conv2d.window (Z.to_nat (nn.Conv2d.kernel_size conv))
                          (Z.to_nat (nn.Conv2d.stride conv)) j →
     elem x [b; c; y; z] = elem x' [b; c; y; z]) →
  elem out [b; o; i; j] = elem out' [b; o; i; j].
Proof.
  intros Hpad Hshape Hout Hout' Hagree.
  unfold nn.Conv2d.forward_batched in Hout, Hout'. rewrite <- Hshape in Hout'.
  destruct (shape x) as [|B [|C [|H [|W [|]]]]] eqn:Hx; try discriminate.
  repeat case_decide; try discriminate.
  all: injection Hout as <-; injection Hout' as <-; cbn.
  all: f_equal; f_equal; unfold nn.Conv2d.terms.
  all: apply list_bind_ext_elem; intros c _.
  all: apply list_bind_ext_elem; intros y Hy.
  all: apply list_bind_ext_elem; intros z Hz.
  all: f_equal; f_equal; unfold nn.Conv2d.padded; rewrite <- Hshape, Hx.
  all: case_decide; [|done].
  all: unfold nn.Conv2d.pad_before in *; rewrite Hpad in *.
  all: destruct (decide ("valid" = "same")); [discriminate|].
  all: rewrite !Nat.sub_0_r; by apply Hagree.
Qed.

(** The result of a batch is read at four indices. *)
Lemma conv2d_forward_batched_rank
    (conv : nn.Conv2d.t R) (x out : Tensor R) (idx : list nat) :
  nn.Conv2d.forward_batched conv x = Ok out →
  length idx ≠ 4%nat → elem out idx = Rzero.
Proof.
  unfold nn.Conv2d.forward_batched. intros Hout Hidx.
  destruct (shape x) as [|B [|C [|H [|W [|]]]]]; try discriminate.
  repeat case_decide; try discriminate.
  all: injection Hout as <-; cbn.
  all: by destruct idx as [|? [|? [|? [|? [|]]]]].
Qed.

(** An output element of a convolution without padding reads the input
    only at the rows and columns of its two windows. *)
Lemma conv2d_forward_local (conv : nn.Conv2d.t R) (x x' out out' : Tensor R)
    (b o i j : nat) :
  nn.Conv2d.padding conv = "valid" →
  shape x = shape x' →
  nn.Conv2d.forward conv x = Ok out →
  nn.Conv2d.forward conv x' = Ok out' →
  (∀ c y z,
     y ∈ nn.Conv2d.window (Z.to_nat (nn.Conv2d.kernel_size conv))
                          (Z.to_nat (nn.Conv2d.stride conv)) i →
     z ∈ nn.Conv2d.window (Z.to_nat (nn.Conv2d.kernel_size conv))
                          (Z.to_nat (nn.Conv2d.stride conv)) j →
     elem x [b; c; y; z] = elem x' [b; c; y; z]) →
  elem out [b; o; i; j] = elem out' [b; o; i; j].
Proof.
  intros Hpad Hshape Hout Hout' Hagree.
  unfold nn.Conv2d.forward in Hout, Hout'. rewrite <- Hshape in Hout'.
  destruct (shape x) as [|C [|H [|W [|]]]] eqn:Hx.
  4: { apply fmap_Ok_inv in Hout as (batch & Hbatch & <-).
       apply fmap_Ok_inv in Hout' as (batch' & Hbatch' & <-). cbn.
       by rewrite (conv2d_forward_batched_rank _ _ _ _ Hbatch),
                  (conv2d_forward_batched_rank _ _ _ _ Hbatch'). }
  all: eapply conv2d_forward_batched_local;
    [exact Hpad| |exact Hout|exact Hout'|exact Hagree]; congruence.
Qed.

(** C10.  In every [SiglipVisionEmbeddings] that [__init__] constructs,
    [num_positions = num_patches = (image_size // patch_size) ** 2]; the
    buffer [position_ids] has shape [(1, num_positions)] and holds
    [0, 1, ..., num_positions - 1] in this order; the table has
    [num_positions] rows, so every entry of [position_ids] is a row of the
    table and the lookup [position_embedding(position_ids)] returns. *)
Theorem position_ids_in_range
    (config : SiglipVisionConfig.t R) (self : SiglipVisionEmbeddings.t R) :
  SiglipVisionEmbeddings.__init__ config = Ok self →
  let n := SiglipVisionEmbeddings.num_positions self in
  let ids := SiglipVisionEmbeddings.position_ids self in
  let table := SiglipVisionEmbeddings.position_embedding self in
  n = SiglipVisionEmbeddings.num_patches self ∧
  SiglipVisionEmbeddings.num_patches self =
    (SiglipVisionConfig.image_size config
       `div` SiglipVisionConfig.patch_size config) ^ 2 ∧
  0 ≤ n ∧
  shape ids = [1%nat; Z.to_nat n] ∧
  (λ i, elem ids [0%nat; i]) <$> seq 0 (Z.to_nat n) =
    Z.of_nat <$> seq 0 (Z.to_nat n) ∧
  nn.Embedding.num_embeddings table = n ∧
  Forall (λ idx, 0 ≤ elem ids idx < nn.Embedding.num_embeddings table)
         (indices (shape ids)) ∧
  returns (nn.Embedding.forward table ids) = true.
Proof.
  intros Hinit.
  apply embeddings_init_Ok_inv in Hinit
    as (Hpatch & Hhid & Hch & Hpos & ids & Hshape & Hids & ->).
  cbn. do 3 (split; [done|]). split; [done|].
  split.
  { apply list_fmap_ext. intros j i [-> Hj]%lookup_seq. by apply Hids. }
  split; [done|].
  assert (Forall
            (λ idx, 0 ≤ elem ids idx <
                    (SiglipVisionConfig.image_size config
                       `div` SiglipVisionConfig.patch_size config) ^ 2)
            (indices (shape ids))) as Hrange.
  { apply Forall_forall. intros idx Hidx%elem_of_indices.
    rewrite Hshape in Hidx.
    apply Forall2_cons_inv_r in Hidx as (b & tl & Hb & Htl & ->).
    apply Forall2_cons_inv_r in Htl as (i & tl' & Hi & ->%Forall2_nil_inv_r & ->).
    replace b with 0%nat by lia. rewrite Hids by done. lia. }
  split; [done|].
  unfold nn.Embedding.forward; cbn. by case_decide.
Qed.

(** A convolution without padding whose stride is its kernel size [k]
    turns a batch of [H x W] pixels into [H / k] by [W / k] patches, of
    as many channels as the layer has output channels, and of none for an
    input without channels. *)
Lemma patch_conv_forward_Ok_inv (conv : nn.Conv2d.t R) (x out : Tensor R) :
  nn.Conv2d.padding conv = "valid" →
  nn.Conv2d.stride conv = nn.Conv2d.kernel_size conv →
  nn.Conv2d.forward_batched conv x = Ok out →
  ∃ B C H W,
    shape x = [B; C; H; W] ∧
    Z.of_nat C = nn.Conv2d.in_channels conv ∧
    1 ≤ nn.Conv2d.out_channels conv ∧
    shape out = [B;
                 if decide (C = 0%nat) then 0%nat
                 else Z.to_nat (nn.Conv2d.out_channels conv);
                 (H / Z.to_nat (nn.Conv2d.kernel_size conv))%nat;
                 (W / Z.to_nat (nn.Conv2d.kernel_size conv))%nat].
Proof.
  intros Hpad Hstride Hout. unfold nn.Conv2d.forward_batched in Hout.
  destruct (shape x) as [|B [|C [|H [|W [|]]]]] eqn:Hx; try discriminate.
  unfold nn.Conv2d.pad_total in Hout. rewrite Hpad, Hstride in Hout.
  destruct (decide ("valid" = "same")); [discriminate|].
  repeat case_decide; try discriminate.
  all: injection Hout as <-; exists B, C, H, W; cbn.
  all: split; [done|]; split; [lia|]; split; [lia|].
  all: set (k := Z.to_nat (nn.Conv2d.kernel_size conv)) in *.
  all: assert (k ≠ 0)%nat by lia.
  all: assert (∀ m, (k ≤ m → (m + 0 - k) / k + 1 = m / k)%nat) as Hdiv
    by (intros m Hm; replace m with ((m - k) + 1 * k)%nat at 2 by lia;
        rewrite Nat.div_add by done; f_equal; f_equal; lia).
  all: rewrite !Hdiv by lia; by case_decide.
Qed.

(** Unpacking a shape into four names needs four dimensions. *)
Lemma unpack4_Ok_inv {A} (xs : list A) (a b c d : A) :
  unpack4 xs = Ok (a, b, c, d) → xs = [a; b; c; d].
Proof.
  unfold unpack4. destruct xs as [|? [|? [|? [|? [|]]]]]; try discriminate.
  by intros [= -> -> -> ->].
Qed.

(** [patch_embed.flatten(2).transpose(1, 2)] *)
Lemma flatten_transpose_Ok (t : Tensor R) (B E H W : nat) :
  shape t = [B; E; H; W] →
  ∃ patches,
    flatten 2 t ≫= transpose 1 2 = Ok patches ∧
    shape patches = [B; (H * W)%nat; E] ∧
    ∀ b n d, elem patches [b; n; d] =
             elem t [b; d; (n / W)%nat; (n `mod` W)%nat].
Proof.
  intros Hshape. unfold flatten. rewrite Hshape; cbn.
  unfold transpose; cbn. eexists. split; [done|]. cbn.
  rewrite !Nat.mul_1_r. split; [done|].
  intros b n d. unfold swap; cbn.
  change ((Nat.divmod (n `mod` W) 0 0 0).1) with ((n `mod` W) / 1)%nat.
  by rewrite Nat.div_1_r.
Qed.

(** Adding a [[1, P, D]] tensor to a [[B, N, E]] tensor, where [E] is [D]
    or, with [D = 1], nothing. *)
Lemma add_positions_Ok_inv (x y out : Tensor R) (B N P E D : nat) :
  shape x = [B; N; E] → shape y = [1%nat; P; D] →
  (E = D ∨ E = 0 ∧ D = 1)%nat →
  add x y = Ok out →
  (N = P ∨ N = 1 ∨ P = 1)%nat ∧
  shape out = [B; if decide (N = 1%nat) then P else N; E] ∧
  ∀ b i d, Forall2 lt [b; i; d] (shape out) →
    elem out [b; i; d] =
      Radd (elem x [b; if decide (N = 1%nat) then 0%nat else i; d])
           (elem y [0%nat; if decide (P = 1%nat) then 0%nat else i; d]).
Proof.
  intros Hx Hy HED. unfold add, broadcast_shapes, broadcast_index.
  rewrite Hx, Hy; cbn.
  destruct HED as [<-|[-> ->]];
    repeat case_decide; subst; cbn; try discriminate; intros [= <-]; cbn;
    (split; [lia|]); (split; [done|]); intros b i d Hidx;
    repeat match goal with
           | H : Forall2 _ (_ :: _) _ |- _ =>
               apply Forall2_cons_1 in H as [? H]
           end;
    repeat case_decide; try lia; try done;
    f_equal; f_equal; repeat f_equal; lia.
Qed.

Lemma add_last_compat (x y out : Tensor R) (B N P E D : nat) :
  shape x = [B; N; E] → shape y = [1%nat; P; D] →
  add x y = Ok out → (E = D ∨ E = 1 ∨ D = 1)%nat.
Proof.
  intros Hx Hy. unfold add, broadcast_shapes. rewrite Hx, Hy; cbn.
  repeat case_decide; subst; cbn; try discriminate; intros _; lia.
Qed.

(** C6.  In every [SiglipVisionEmbeddings] that [__init__] constructs, the
    patch embedding is a convolution without padding whose stride and
    kernel size are both [patch_size], which is positive.  Its windows have
    [patch_size] rows (columns) each, and no row (column) of the input lies
    in two of them; a batch of [H x W] pixels yields [H / patch_size] by
    [W / patch_size] output positions, of [hidden_size] channels each (of
    none when the input has no channel), and the output at position
    [(i, j)] depends on the input only through the pixels of patch
    [(i, j)].  The position table has exactly
    [(image_size // patch_size) ** 2] rows of [hidden_size] entries. *)
Theorem patch_embedding_non_overlapping
    (config : SiglipVisionConfig.t R) (self : SiglipVisionEmbeddings.t R) :
  SiglipVisionEmbeddings.__init__ config = Ok self →
  let conv := SiglipVisionEmbeddings.patch_embedding self in
  let table := SiglipVisionEmbeddings.position_embedding self in
  let patch := Z.to_nat (SiglipVisionConfig.patch_size config) in
  let positions :=
    (SiglipVisionConfig.image_size config
       `div` SiglipVisionConfig.patch_size config) ^ 2 in
  nn.Conv2d.kernel_size conv = SiglipVisionConfig.patch_size config ∧
  nn.Conv2d.stride conv = nn.Conv2d.kernel_size conv ∧
  nn.Conv2d.padding conv = "valid" ∧
  0 < SiglipVisionConfig.patch_size config ∧
  (∀ i, length (nn.Conv2d.window patch patch i) = patch) ∧
  (∀ i i' y, y ∈ nn.Conv2d.window patch patch i →
             y ∈ nn.Conv2d.window patch patch i' → i = i') ∧
  (∀ x out B C H W,
     shape x = [B; C; H; W] →
     nn.Conv2d.forward conv x = Ok out →
     shape out =
       [B;
        if decide (C = 0%nat) then 0%nat
        else Z.to_nat (SiglipVisionConfig.hidden_size config);
        (H / patch)%nat; (W / patch)%nat]) ∧
  (∀ x x' out out' b o i j,
     shape x = shape x' →
     nn.Conv2d.forward conv x = Ok out →
     nn.Conv2d.forward conv x' = Ok out' →
     (∀ c y z, y ∈ nn.Conv2d.window patch patch i →
               z ∈ nn.Conv2d.window patch patch j →
               elem x [b; c; y; z] = elem x' [b; c; y; z]) →
     elem out [b; o; i; j] = elem out' [b; o; i; j]) ∧
  nn.Embedding.num_embeddings table = positions ∧
  shape (nn.Embedding.weight table) =
    [Z.to_nat positions; Z.to_nat (SiglipVisionConfig.hidden_size config)].
Proof.
  intros Hinit.
  apply embeddings_init_Ok_inv in Hinit
    as (Hpatch & Hhid & Hch & Hpos & ids & Hshape & Hids & ->).
  cbn. do 4 (split; [done|]).
  split; [intros i; apply window_length|].
  split; [intros i i' y; apply window_disjoint|].
  split; [|split; [|done]].
  - intros x out B C H W Hx Hout.
    rewrite (conv2d_forward_4d _ _ _ _ _ _ Hx) in Hout.
    apply patch_conv_forward_Ok_inv in Hout
      as (B' & C' & H' & W' & Hx' & _ & _ & Ho); [|done..].
    rewrite Hx in Hx'. by injection Hx' as <- <- <- <-.
  - intros x x' out out' b o i j Hsame Hout Hout' Hagree.
    eapply conv2d_forward_local;
      [|exact Hsame|exact Hout|exact Hout'|exact Hagree]; done.
Qed.

(** C7, amended.  Whenever [SiglipVisionEmbeddings.forward] returns on an
    object [__init__] constructed, the convolution has produced [H x W]
    patches per image and [patches], of shape [[B, H * W, E]], is its
    flattened, transposed output, where [E] is [hidden_size], or 0 under
    a config without channels: entry [[b, n, d]] is entry
    [[b, d, n / W, n mod W]] of the convolution.  The result is [patches]
    plus rows of the position table under broadcasting: the number of
    patches equals [num_positions], or one of the two is 1.  The row added
    at position [i] is row [i] of the table, which exists, unless the table
    has a single row, which is then added at every position; the row does
    not depend on the batch index [b].  When the input yields exactly
    [num_positions] patches, the vector added to patch [i] is
    [position_embedding(i)] at every position. *)
Theorem embeddings_forward_adds_positions
    (config : SiglipVisionConfig.t R) (self : SiglipVisionEmbeddings.t R)
    (pixel_values out : Tensor R) :
  SiglipVisionEmbeddings.__init__ config = Ok self →
  SiglipVisionEmbeddings.forward self pixel_values = Ok out →
  let table :=
    nn.Embedding.weight (SiglipVisionEmbeddings.position_embedding self) in
  let P := Z.to_nat (SiglipVisionEmbeddings.num_positions self) in
  let E :=
    if decide (SiglipVisionConfig.num_channels config = 0) then 0%nat
    else Z.to_nat (SiglipVisionEmbeddings.embed_dim self) in
  ∃ (patch_embed patches : Tensor R) (B H W : nat),
    let N := (H * W)%nat in
    nn.Conv2d.forward (SiglipVisionEmbeddings.patch_embedding self)
      pixel_values = Ok patch_embed ∧
    shape patch_embed = [B; E; H; W] ∧
    flatten 2 patch_embed ≫= transpose 1 2 = Ok patches ∧
    shape patches = [B; N; E] ∧
    (∀ b n d, elem patches [b; n; d] =
              elem patch_embed [b; d; (n / W)%nat; (n `mod` W)%nat]) ∧
    (N = P ∨ N = 1 ∨ P = 1)%nat ∧
    shape out = [B; if decide (N = 1%nat) then P else N; E] ∧
    (∀ b i d, Forall2 lt [b; i; d] (shape out) →
       let row := if decide (P = 1%nat) then 0%nat else i in
       (row < P)%nat ∧
       elem out [b; i; d] =
         Radd (elem patches [b; if decide (N = 1%nat) then 0%nat else i; d])
              (elem table [row; d])) ∧
    (N = P → Spec.adds_own_position self patches out).
Proof.
  intros Hinit Hfwd.
  apply embeddings_init_Ok_inv in Hinit
    as (Hpatch & Hhid & Hch & Hpos & ids & Hshape & Hids & ->).
  unfold SiglipVisionEmbeddings.forward in Hfwd. cbn in *.
  set (P := Z.to_nat ((SiglipVisionConfig.image_size config
                         `div` SiglipVisionConfig.patch_size config) ^ 2)) in *.
  set (D := Z.to_nat (SiglipVisionConfig.hidden_size config)) in *.
  step_ok Hfwd. destruct v as [[[B0 C0] height] width].
  apply unpack4_Ok_inv in Hv. rename Hv into Hx.
  step_ok Hfwd. rename v into patch_embed, Hv into Hconv.
  step_ok Hfwd. rename v into flat, Hv into Hflat.
  step_ok Hfwd. rename v into patches, Hv into Htr.
  step_ok Hfwd. rename v into pos, Hv into Hpos_fwd.
  step_ok Hfwd. injection Hfwd as ->. rename Hv into Hadd.
  pose proof Hconv as Hconv_shape.
  rewrite (conv2d_forward_4d _ _ _ _ _ _ Hx) in Hconv_shape.
  apply patch_conv_forward_Ok_inv in Hconv_shape
    as (B & C & H & W & _ & HC & HD & Hpe); [|done..].
  cbn in HC, HD, Hpe. fold D in Hpe.
  set (E := if decide (SiglipVisionConfig.num_channels config = 0)
            then 0%nat else D).
  assert ((if decide (C = 0%nat) then 0%nat else D) = E) as HE
    by (unfold E; repeat case_decide; lia || done).
  rewrite HE in Hpe. clear HE.
  destruct (flatten_transpose_Ok patch_embed _ _ _ _ Hpe)
    as (patches' & Hpatches & Hpshape & Hpelem).
  rewrite Hflat in Hpatches; cbn in Hpatches. rewrite Htr in Hpatches.
  injection Hpatches as <-.
  unfold nn.Embedding.forward in Hpos_fwd; cbn in Hpos_fwd.
  case_decide; [|discriminate]. injection Hpos_fwd as <-.
  assert (E = D ∨ E = 0 ∧ D = 1)%nat as HED.
  { eapply add_last_compat in Hadd as Hlast;
      [|exact Hpshape|by cbn; rewrite Hshape].
    fold D in Hlast. unfold E in *. case_decide; lia. }
  eapply add_positions_Ok_inv in Hadd as (Hcompat & Hout & Helem);
    [|exact Hpshape|by cbn; rewrite Hshape|exact HED].
  eexists patch_embed, patches, B, _, _.
  split; [done|]. split; [exact Hpe|].
  split; [rewrite Hflat; cbn; by rewrite Htr|].
  split; [exact Hpshape|]. split; [exact Hpelem|].
  split; [exact Hcompat|]. split; [exact Hout|].
  assert (∀ b i d, Forall2 lt [b; i; d] (shape out) →
            (if decide (P = 1%nat) then 0%nat else i) < P)%nat as Hrow.
  { intros b i d Hidx. rewrite Hout in Hidx.
    apply Forall2_cons_1 in Hidx as [_ Hidx].
    apply Forall2_cons_1 in Hidx as [Hi _].
    repeat case_decide; lia. }
  split.
  - intros b i d Hidx. split; [by eapply Hrow|].
    rewrite (Helem b i d Hidx). f_equal. cbn.
    rewrite Hshape; cbn. rewrite Hids by (by eapply Hrow). by rewrite Nat2Z.id.
  - intros HNP b i d Hidx. specialize (Hrow b i d Hidx).
    rewrite (Helem b i d Hidx). cbn. rewrite Hshape; cbn.
    rewrite Hids by done. rewrite Nat2Z.id.
    rewrite Hout in Hidx.
    apply Forall2_cons_1 in Hidx as [_ Hidx].
    apply Forall2_cons_1 in Hidx as [Hi _].
    fold P. split; [repeat case_decide; lia|].
    repeat case_decide; try lia; try done.
    all: by replace i with 0%nat by lia.
Qed.
End tensors.


(** C10 at the default config: 196 positions. *)
Lemma position_ids_in_range_default :
  SiglipVisionEmbeddings.__init__ Example.default_config =
    Ok Example.default_embeddings ∧
  SiglipVisionEmbeddings.num_positions Example.default_embeddings = 196 ∧
  shape (SiglipVisionEmbeddings.position_ids Example.default_embeddings) =
    [1; 196]%nat ∧
  returns (nn.Embedding.forward
             (SiglipVisionEmbeddings.position_embedding
                Example.default_embeddings)
             (SiglipVisionEmbeddings.position_ids
                Example.default_embeddings)) = true.
Proof.
  assert (SiglipVisionEmbeddings.__init__ Example.default_config =
            Ok Example.default_embeddings) as Hinit
    by (vm_compute; reflexivity).
  split; [exact Hinit|]. split; [reflexivity|].
  destruct (position_ids_in_range
              Example.default_config Example.default_embeddings Hinit)
    as (_ & _ & _ & Hshape & _ & _ & _ & Hreturns).
  split; [exact Hshape | exact Hreturns].
Defined.

(** C6 at the default config: 16 x 16 patches, 196 table rows. *)
Lemma patch_embedding_non_overlapping_default :
  SiglipVisionEmbeddings.__init__ Example.default_config =
    Ok Example.default_embeddings ∧
  nn.Conv2d.stride
    (SiglipVisionEmbeddings.patch_embedding Example.default_embeddings) = 16 ∧
  nn.Conv2d.kernel_size
    (SiglipVisionEmbeddings.patch_embedding Example.default_embeddings) = 16 ∧
  (∀ i i' y, y ∈ nn.Conv2d.window 16 16 i →
             y ∈ nn.Conv2d.window 16 16 i' → i = i') ∧
  nn.Embedding.num_embeddings
    (SiglipVisionEmbeddings.position_embedding Example.default_embeddings)
    = 196.
Proof.
  assert (SiglipVisionEmbeddings.__init__ Example.default_config =
            Ok Example.default_embeddings) as Hinit
    by (vm_compute; reflexivity).
  split; [exact Hinit|]. split; [reflexivity|]. split; [reflexivity|].
  destruct (patch_embedding_non_overlapping
              Example.default_config Example.default_embeddings Hinit)
    as (_ & _ & _ & _ & _ & Hdisjoint & _ & _ & Hrows & _).
  split; [exact Hdisjoint | exact Hrows].
Defined.

(** C7, amended, at a batch of two 4 x 4 images under [small_config]:
    four patches, four positions. *)
Lemma embeddings_forward_adds_positions_small :
  SiglipVisionEmbeddings.__init__ Example.small_config =
    Ok Example.small_embeddings ∧
  ∃ out,
    SiglipVisionEmbeddings.forward Example.small_embeddings
      Example.small_input = Ok out ∧
    ∃ patch_embed patches B H W,
      nn.Conv2d.forward
        (SiglipVisionEmbeddings.patch_embedding Example.small_embeddings)
        Example.small_input = Ok patch_embed ∧
      shape patch_embed = [B; 2%nat; H; W] ∧
      flatten 2 patch_embed ≫= transpose 1 2 = Ok patches ∧
      shape patches = [B; (H * W)%nat; 2%nat] ∧
      (H * W = 4 ∨ H * W = 1 ∨ 4 = 1)%nat ∧
      ((H * W)%nat = 4%nat →
       Spec.adds_own_position Example.small_embeddings patches out).
Proof.
  assert (SiglipVisionEmbeddings.__init__ Example.small_config =
            Ok Example.small_embeddings) as Hinit
    by (vm_compute; reflexivity).
  split; [exact Hinit|].
  destruct (returns_true_Ok
              (SiglipVisionEmbeddings.forward Example.small_embeddings
                 Example.small_input)) as [out Hforward];
    [vm_compute; reflexivity|].
  exists out. split; [exact Hforward|].
  destruct (embeddings_forward_adds_positions
              Example.small_config Example.small_embeddings
              Example.small_input out Hinit Hforward)
    as (patch_embed & patches & B & H & W & Hconv & Hpe & Hpatches &
        Hpshape & _ & Hcompat & _ & _ & Hown).
  exists patch_embed, patches, B, H, W.
  split; [exact Hconv|]. split; [exact Hpe|]. split; [exact Hpatches|].
  split; [exact Hpshape|]. split; [exact Hcompat|]. exact Hown.
Defined.

(** C7 as stated fails for one 4 x 2 image under a config whose image is
    a single patch.  The input yields two patches, the table has one row;
    [forward] returns, and to patch 1 it adds row 0 of the table:
    [position_embedding(1)] does not exist. *)
Lemma embeddings_forward_single_row_table :
  returns (SiglipVisionEmbeddings.forward Example.one_patch_embeddings
             Example.two_patch_input) = true ∧
  shape Example.two_patch_patches = [1; 2; 2]%nat ∧
  shape Example.two_patch_output = [1; 2; 2]%nat ∧
  nn.Embedding.num_embeddings
    (SiglipVisionEmbeddings.position_embedding Example.one_patch_embeddings)
    = 1 ∧
  elem Example.two_patch_output [0; 1; 0]%nat =
    Radd (elem Example.two_patch_patches [0; 1; 0]%nat)
         (elem (nn.Embedding.weight
                  (SiglipVisionEmbeddings.position_embedding
                     Example.one_patch_embeddings)) [0; 0]%nat) ∧
  ¬ Spec.adds_own_position Example.one_patch_embeddings
      Example.two_patch_patches Example.two_patch_output.
Proof.
  do 5 (split; [vm_compute; reflexivity|]).
  intros Hclaim.
  destruct (Hclaim 0 1 0)%nat as [Hrow _].
  - assert (shape Example.two_patch_output = [1; 2; 2]%nat) as ->
      by (vm_compute; reflexivity).
    repeat constructor.
  - vm_compute in Hrow. discriminate.
Qed.

(** ** The embedding layer at the edges of its domain *)

(** The convolution takes one image [[C, H, W]] as a batch of one, and
    the result has no batch dimension; [SiglipVisionEmbeddings.forward]
    refuses such an input at line 66, where it unpacks four sizes. *)
Lemma conv2d_forward_unbatched :
  shape <$> nn.Conv2d.forward
              (SiglipVisionEmbeddings.patch_embedding Example.small_embeddings)
              (Example.image [1; 4; 4]%nat) = Ok [2; 2; 2]%nat ∧
  SiglipVisionEmbeddings.forward Example.small_embeddings
    (Example.image [1; 4; 4]%nat) =
    Raise (ValueError "unpack: expected 4 values").
Proof. split; vm_compute; reflexivity. Qed.

(** With [hidden_size=0] the object is constructed, and the convolution
    of line 71 refuses its weight. *)
Lemma embeddings_forward_no_hidden :
  SiglipVisionEmbeddings.__init__ Example.no_hidden_config =
    Ok Example.no_hidden_embeddings ∧
  SiglipVisionEmbeddings.forward Example.no_hidden_embeddings
    Example.small_input =
    Raise (RuntimeError "conv2d: weight without output channels").
Proof. split; vm_compute; reflexivity. Qed.

(** With [num_channels=0] the convolution of an input without channels
    has no channels either: [[2, 0, 2, 2]] under [hidden_size=2], and the
    sum of line 80 then raises, 0 against 2. *)
Lemma embeddings_forward_no_channel :
  SiglipVisionEmbeddings.__init__ Example.no_channel_config =
    Ok Example.no_channel_embeddings ∧
  shape <$> nn.Conv2d.forward
              (SiglipVisionEmbeddings.patch_embedding
                 Example.no_channel_embeddings)
              (Example.image [2; 0; 4; 4]%nat) = Ok [2; 0; 2; 2]%nat ∧
  SiglipVisionEmbeddings.forward Example.no_channel_embeddings
    (Example.image [2; 0; 4; 4]%nat) =
    Raise (RuntimeError "broadcast: sizes differ at a non-singleton dimension").
Proof. repeat split; vm_compute; reflexivity. Qed.

(** With [num_channels=0] and [hidden_size=1] the sum broadcasts, and the
    result has no entries: [[2, 4, 0]]. *)
Lemma embeddings_forward_no_channel_one :
  SiglipVisionEmbeddings.__init__ Example.no_channel_one_config =
    Ok Example.no_channel_one_embeddings ∧
  shape <$> SiglipVisionEmbeddings.forward Example.no_channel_one_embeddings
              (Example.image [2; 0; 4; 4]%nat) = Ok [2; 4; 0]%nat.
Proof. split; vm_compute; reflexivity. Qed.

(** * Further properties of the code *)

Section further.
Context {R : Type} `{!Scalar R} {machine : Allocator}.

Lemma empty_returns name dims :
  Forall (λ d, 0 ≤ d) dims → alloc_error dims = None →
  empty name dims = Ok (mkTensor (Z.to_nat <$> dims) (Rinit name) : Tensor R).
Proof.
  intros Hdims Halloc. unfold empty. rewrite Halloc. by destruct (decide _).
Qed.

Lemma arange_expand_returns (n : Z) :
  0 ≤ n → alloc_error [n] = None →
  ∃ ids, arange n ≫= expand [1; -1] = Ok ids.
Proof.
  intros Hn Halloc. unfold arange. case_decide; [lia|]. rewrite Halloc. cbn.
  unfold expand; cbn. repeat case_decide; try lia; cbn; eauto.
Qed.

Lemma arange_Ok_allocates (n : Z) (range : Tensor Z) :
  arange n = Ok range → alloc_error [n] = None.
Proof.
  unfold arange. case_decide; [discriminate|]. by destruct (alloc_error [n]).
Qed.

(** The tensors [SiglipVisionEmbeddings.__init__] creates. *)
Lemma embeddings_init_Ok_allocates
    (config : SiglipVisionConfig.t R) (self : SiglipVisionEmbeddings.t R) :
  SiglipVisionEmbeddings.__init__ config = Ok self →
  let hidden := SiglipVisionConfig.hidden_size config in
  let channels := SiglipVisionConfig.num_channels config in
  let patch := SiglipVisionConfig.patch_size config in
  let positions :=
    (SiglipVisionConfig.image_size config `div` patch) ^ 2 in
  alloc_error [hidden; channels; patch; patch] = None ∧
  alloc_error [hidden] = None ∧
  alloc_error [positions; hidden] = None ∧
  alloc_error [positions] = None.
Proof.
  unfold SiglipVisionEmbeddings.__init__. intros H.
  rewrite load_global_super in H; cbn in H.
  rewrite load_global_nn in H; cbn in H.
  apply bind_Ok_inv in H as (conv & Hconv & H).
  apply bind_Ok_inv in H as (quotient & Hdiv & H). unfold floordiv in Hdiv.
  destruct (decide (SiglipVisionConfig.patch_size config = 0)); [discriminate|].
  injection Hdiv as <-. cbn in H.
  apply bind_Ok_inv in H as (table & Htable & H).
  rewrite load_global_torch in H; cbn in H.
  apply bind_Ok_inv in H as (range & Hrange & _).
  unfold nn.Conv2d.__init__ in Hconv.
  repeat case_decide; try discriminate.
  apply bind_Ok_inv in Hconv as (weight & Hweight & Hconv).
  apply bind_Ok_inv in Hconv as (bias & Hbias & _).
  unfold nn.Embedding.__init__ in Htable.
  apply bind_Ok_inv in Htable as (rows & Hrows & _).
  cbn. split; [by eapply empty_Ok_allocates|].
  split; [by eapply empty_Ok_allocates|].
  split; [by eapply empty_Ok_allocates|].
  by eapply arange_Ok_allocates.
Qed.

Lemma embeddings_init_returns (config : SiglipVisionConfig.t R) :
  let hidden := SiglipVisionConfig.hidden_size config in
  let channels := SiglipVisionConfig.num_channels config in
  let patch := SiglipVisionConfig.patch_size config in
  let positions :=
    (SiglipVisionConfig.image_size config `div` patch) ^ 2 in
  0 < patch → 0 ≤ hidden → 0 ≤ channels →
  alloc_error [hidden; channels; patch; patch] = None →
  alloc_error [hidden] = None →
  alloc_error [positions; hidden] = None →
  alloc_error [positions] = None →
  ∃ self, SiglipVisionEmbeddings.__init__ config = Ok self.
Proof.
  intros hidden channels patch positions Hpatch Hhid Hch Hw Hb Htable Hids.
  unfold SiglipVisionEmbeddings.__init__.
  rewrite load_global_super; cbn. rewrite load_global_nn; cbn.
  unfold nn.Conv2d.__init__.
  destruct (decide ("valid" ≠ "valid" ∧ "valid" ≠ "same")) as [[? _]|_];
    [done|].
  destruct (decide ("valid" = "same" ∧ _)) as [[? _]|_]; [done|].
  rewrite !empty_returns by (done || (repeat constructor; lia)). cbn.
  unfold floordiv. case_decide; [lia|]. cbn.
  unfold nn.Embedding.__init__.
  assert (0 ≤ positions) by (unfold positions; lia).
  rewrite empty_returns by (done || (repeat constructor; lia)). cbn.
  rewrite load_global_torch; cbn.
  destruct (arange_expand_returns positions) as [ids Hrange]; [done..|].
  apply bind_Ok_inv in Hrange as (range & Hrange & Hexpand).
  fold patch positions. rewrite Hrange; cbn. rewrite Hexpand; cbn. eauto.
Qed.

(** X1.  [SiglipVisionEmbeddings(config)] constructs an object exactly
    when [patch_size] is positive, [hidden_size] and [num_channels] are
    not negative, and the machine creates the four tensors of the object:
    the weight and the bias of the convolution, the position table and
    the position ids.  With [patch_size = 0] (the two sizes not negative,
    the weight and the bias created) the exception is the
    [ZeroDivisionError] of line 56. *)
Theorem embeddings_init_returns_iff (config : SiglipVisionConfig.t R) :
  let hidden := SiglipVisionConfig.hidden_size config in
  let channels := SiglipVisionConfig.num_channels config in
  let patch := SiglipVisionConfig.patch_size config in
  let positions :=
    (SiglipVisionConfig.image_size config `div` patch) ^ 2 in
  (returns (SiglipVisionEmbeddings.__init__ config) = true ↔
     0 < patch ∧ 0 ≤ hidden ∧ 0 ≤ channels ∧
     alloc_error [hidden; channels; patch; patch] = None ∧
     alloc_error [hidden] = None ∧
     alloc_error [positions; hidden] = None ∧
     alloc_error [positions] = None) ∧
  (patch = 0 ∧ 0 ≤ hidden ∧ 0 ≤ channels ∧
   alloc_error [hidden; channels; patch; patch] = None ∧
   alloc_error [hidden] = None →
   SiglipVisionEmbeddings.__init__ config = Raise ZeroDivisionError).
Proof.
  intros hidden channels patch positions. split; [split|].
  - intros (self & Hinit)%returns_true_Ok.
    pose proof (embeddings_init_Ok_allocates config self Hinit) as Halloc.
    apply embeddings_init_Ok_inv in Hinit as (? & ? & ? & _).
    by repeat split; try apply Halloc.
  - intros (Hpatch & Hhid & Hch & Hw & Hb & Htable & Hids).
    destruct (embeddings_init_returns config) as [self ->]; done.
  - intros (Hpatch & Hhid & Hch & Hw & Hb).
    unfold SiglipVisionEmbeddings.__init__.
    rewrite load_global_super; cbn. rewrite load_global_nn; cbn.
    unfold nn.Conv2d.__init__.
    destruct (decide ("valid" ≠ "valid" ∧ "valid" ≠ "same")) as [[? _]|_];
      [done|].
    destruct (decide ("valid" = "same" ∧ _)) as [[? _]|_]; [done|].
    rewrite !empty_returns
      by (done || (repeat constructor; unfold patch in *; lia)). cbn.
    unfold floordiv. by case_decide.
Qed.

(** A convolution without padding whose stride is its kernel size [k]
    and which has an output channel accepts exactly the batches with the
    layer's number of channels and at least [k] rows and columns. *)
Lemma patch_conv_forward_returns_iff (conv : nn.Conv2d.t R) (x : Tensor R) :
  nn.Conv2d.padding conv = "valid" →
  nn.Conv2d.stride conv = nn.Conv2d.kernel_size conv →
  0 < nn.Conv2d.kernel_size conv →
  returns (nn.Conv2d.forward_batched conv x) = true ↔
  1 ≤ nn.Conv2d.out_channels conv ∧
  ∃ B C H W,
    shape x = [B; C; H; W] ∧ Z.of_nat C = nn.Conv2d.in_channels conv ∧
    (Z.to_nat (nn.Conv2d.kernel_size conv) ≤ H)%nat ∧
    (Z.to_nat (nn.Conv2d.kernel_size conv) ≤ W)%nat.
Proof.
  intros Hpad Hstride Hk.
  unfold nn.Conv2d.forward_batched, nn.Conv2d.pad_total.
  rewrite Hpad, Hstride.
  destruct (decide ("valid" = "same")); [discriminate|].
  split.
  - destruct (shape x) as [|B [|C [|H [|W [|]]]]]; try discriminate.
    repeat case_decide; try discriminate.
    all: intros _; split; [lia|].
    all: exists B, C, H, W; repeat split; [done|lia..].
  - intros (Hout & B & C & H & W & -> & HC & HH & HW).
    repeat case_decide; try done; lia.
Qed.


(** What [forward] computes on an object [__init__] constructed, step by
    step.  [E] is the last dimension of the result: [hidden_size], or 0
    for an input without channels. *)
Lemma embeddings_forward_Ok_inv
    (config : SiglipVisionConfig.t R) (self : SiglipVisionEmbeddings.t R)
    (x out : Tensor R) :
  SiglipVisionEmbeddings.__init__ config = Ok self →
  SiglipVisionEmbeddings.forward self x = Ok out →
  let p := Z.to_nat (SiglipVisionConfig.patch_size config) in
  let P := Z.to_nat (SiglipVisionEmbeddings.num_positions self) in
  let D := Z.to_nat (SiglipVisionConfig.hidden_size config) in
  ∃ (patch_embed : Tensor R) (B C H W : nat),
    let N := ((H / p) * (W / p))%nat in
    let E := if decide (C = 0%nat) then 0%nat else D in
    shape x = [B; C; H; W] ∧
    Z.of_nat C = SiglipVisionConfig.num_channels config ∧
    (p ≤ H)%nat ∧ (p ≤ W)%nat ∧
    nn.Conv2d.forward (SiglipVisionEmbeddings.patch_embedding self) x
      = Ok patch_embed ∧
    (N = P ∨ N = 1 ∨ P = 1)%nat ∧
    1 ≤ SiglipVisionConfig.hidden_size config ∧
    (C = 0%nat → SiglipVisionConfig.hidden_size config = 1) ∧
    shape out = [B; if decide (N = 1%nat) then P else N; E] ∧
    ∀ b i d, Forall2 lt [b; i; d] (shape out) →
      let n := if decide (N = 1%nat) then 0%nat else i in
      let row := if decide (P = 1%nat) then 0%nat else i in
      elem out [b; i; d] =
        Radd (elem patch_embed [b; d; (n / (W / p))%nat; (n `mod` (W / p))%nat])
             (elem (nn.Embedding.weight
                      (SiglipVisionEmbeddings.position_embedding self))
                   [row; d]).
Proof.
  intros Hinit Hfwd.
  apply embeddings_init_Ok_inv in Hinit
    as (Hpatch & Hhid & Hch & Hpos & ids & Hshape & Hids & ->).
  unfold SiglipVisionEmbeddings.forward in Hfwd. cbn in *.
  set (P := Z.to_nat ((SiglipVisionConfig.image_size config
                         `div` SiglipVisionConfig.patch_size config) ^ 2)) in *.
  set (D := Z.to_nat (SiglipVisionConfig.hidden_size config)) in *.
  step_ok Hfwd. destruct v as [[[B C] H] W].
  apply unpack4_Ok_inv in Hv. rename Hv into Hx.
  step_ok Hfwd. rename v into patch_embed, Hv into Hconv.
  step_ok Hfwd. rename v into flat, Hv into Hflat.
  step_ok Hfwd. rename v into patches, Hv into Htr.
  step_ok Hfwd. rename v into pos, Hv into Hpos_fwd.
  step_ok Hfwd. injection Hfwd as ->. rename Hv into Hadd.
  pose proof Hconv as Hbatch.
  rewrite (conv2d_forward_4d _ _ _ _ _ _ Hx) in Hbatch.
  match type of Hbatch with
  | nn.Conv2d.forward_batched ?conv x = _ =>
      assert (returns (nn.Conv2d.forward_batched conv x) = true) as Hret
        by (by rewrite Hbatch)
  end.
  apply patch_conv_forward_returns_iff in Hret
    as (_ & B' & C' & H' & W' & Hx' & HC & HH & HW); [|done..].
  rewrite Hx in Hx'. injection Hx' as <- <- <- <-. cbn in HC, HH, HW.
  apply patch_conv_forward_Ok_inv in Hbatch
    as (B' & C' & H' & W' & Hx' & _ & HD & Hpe); [|done..].
  rewrite Hx in Hx'. injection Hx' as <- <- <- <-.
  cbn in HD, Hpe. fold D in Hpe.
  destruct (flatten_transpose_Ok patch_embed _ _ _ _ Hpe)
    as (patches' & Hpatches & Hpshape & Hpelem).
  rewrite Hflat in Hpatches; cbn in Hpatches. rewrite Htr in Hpatches.
  injection Hpatches as <-.
  unfold nn.Embedding.forward in Hpos_fwd; cbn in Hpos_fwd.
  destruct (decide (Forall _ _)) in Hpos_fwd; [|discriminate].
  injection Hpos_fwd as <-.
  assert ((if decide (C = 0%nat) then 0%nat else D) = D ∨
          (if decide (C = 0%nat) then 0%nat else D) = 0%nat ∧ D = 1%nat)
    as HED.
  { eapply add_last_compat in Hadd as Hlast;
      [|exact Hpshape|by cbn; rewrite Hshape].
    fold D in Hlast. destruct (decide (C = 0%nat)); lia. }
  eapply add_positions_Ok_inv in Hadd as (Hcompat & Hout & Helem);
    [|exact Hpshape|by cbn; rewrite Hshape|exact HED].
  exists patch_embed, B, C, H, W.
  do 5 (split; [done|]). split; [exact Hcompat|]. split; [exact HD|].
  split; [intros ->; destruct (decide (0%nat = 0%nat)); unfold D in *; lia|].
  split; [exact Hout|].
  intros b i d Hidx. rewrite (Helem b i d Hidx), Hpelem. f_equal. cbn.
  rewrite Hshape; cbn.
  assert ((if decide (P = 1%nat) then 0%nat else i) < P)%nat as Hrow.
  { rewrite Hout in Hidx.
    apply Forall2_cons_1 in Hidx as [_ Hidx].
    apply Forall2_cons_1 in Hidx as [Hi _].
    repeat case_decide; lia. }
  rewrite Hids by done. by rewrite Nat2Z.id.
Qed.




(** X4.  An output token depends on the pixels of its own patch only.  If
    two inputs of one shape agree, in image [b], on the rows and columns
    of patch [i] (patch 0 when the image is a single patch), then the
    entries [[b, i, d]] of the two results are equal, whatever the inputs
    hold elsewhere: in the other patches and in the other images of the
    batch. *)
Theorem embeddings_forward_token_local
    (config : SiglipVisionConfig.t R) (self : SiglipVisionEmbeddings.t R)
    (x x' out out' : Tensor R) (B C H W b i d : nat) :
  SiglipVisionEmbeddings.__init__ config = Ok self →
  SiglipVisionEmbeddings.forward self x = Ok out →
  SiglipVisionEmbeddings.forward self x' = Ok out' →
  shape x = [B; C; H; W] → shape x' = [B; C; H; W] →
  Forall2 lt [b; i; d] (shape out) →
  let p := Z.to_nat (SiglipVisionConfig.patch_size config) in
  let n := if decide ((H / p) * (W / p) = 1)%nat then 0%nat else i in
  (∀ c y z,
     y ∈ nn.Conv2d.window p p (n / (W / p))%nat →
     z ∈ nn.Conv2d.window p p (n `mod` (W / p))%nat →
     elem x [b; c; y; z] = elem x' [b; c; y; z]) →
  elem out [b; i; d] = elem out' [b; i; d].
Proof.
  intros Hinit Hfwd Hfwd' Hx Hx' Hidx p n Hagree.
  destruct (embeddings_forward_Ok_inv config self x out Hinit Hfwd)
    as (pe & B1 & C1 & H1 & W1 & Hx1 & _ & _ & _ & Hconv & _ & _ & _ &
        Hout & Helem).
  destruct (embeddings_forward_Ok_inv config self x' out' Hinit Hfwd')
    as (pe' & B2 & C2 & H2 & W2 & Hx2 & _ & _ & _ & Hconv' & _ & _ & _ &
        Hout' & Helem').
  rewrite Hx in Hx1. injection Hx1 as <- <- <- <-.
  rewrite Hx' in Hx2. injection Hx2 as <- <- <- <-.
  assert (Forall2 lt [b; i; d] (shape out')) as Hidx'
    by (by rewrite Hout', <- Hout).
  rewrite (Helem b i d Hidx), (Helem' b i d Hidx'). f_equal.
  apply embeddings_init_Ok_inv in Hinit
    as (_ & _ & _ & _ & ids & _ & _ & ->).
  eapply conv2d_forward_local;
    [|by rewrite Hx, Hx'|exact Hconv|exact Hconv'|exact Hagree]; done.
Qed.

(** X5.  Called by its own name, [model.forwrd(pixel_values)] does reach
    the vision transformer: the keyword [pixel_values] of line 152 is the
    parameter of [SiglipVisionTransformer.forward], so [forwrd] is that
    [forward] on [self.vision_model]; and since that [forward] always
    raises, [forwrd] never returns either. *)
Theorem vision_model_forwrd_delegates
    (self : SiglipVisionModel.t R) (pixel_values : Tensor R) :
  SiglipVisionModel.forwrd self pixel_values =
    SiglipVisionTransformer.forward
      (SiglipVisionModel.vision_model self) pixel_values ∧
  returns (SiglipVisionModel.forwrd self pixel_values) = false.
Proof.
  assert (SiglipVisionModel.forwrd self pixel_values =
            SiglipVisionTransformer.forward
              (SiglipVisionModel.vision_model self) pixel_values) as Heq.
  { unfold SiglipVisionModel.forwrd, nn.Module_.__call__.
    rewrite vision_transformer_forward_member, bind_arguments_keyword.
    by destruct (decide ("pixel_values" = "pixel_values")). }
  split; [exact Heq|].
  rewrite Heq, vision_transformer_forward_unfold.
  by destruct (SiglipVisionEmbeddings.forward _ pixel_values).
Qed.

(** X6.  [SiglipMLP.forward] works on each position separately.  When two
    inputs of one shape hold the same row at a position [pre], the two
    results hold the same row there, whatever the other rows are. *)
Theorem mlp_forward_position_wise
    (self : SiglipMLP.t R) (x x' y y' : Tensor R)
    (lead pre : list nat) (n : nat) :
  SiglipMLP.forward self x = Ok y →
  SiglipMLP.forward self x' = Ok y' →
  shape x = lead ++ [n] → shape x' = lead ++ [n] →
  length pre = length lead →
  (∀ i, (i < n)%nat → elem x (pre ++ [i]) = elem x' (pre ++ [i])) →
  ∀ o, elem y (pre ++ [o]) = elem y' (pre ++ [o]).
Proof.
  intros Hy Hy' Hx Hx' Hpre Hrow o.
  rewrite mlp_forward_feed_forward in Hy, Hy'.
  unfold Spec.feed_forward in Hy, Hy'.
  step_ok Hy. rewrite gelu_tanh_Ok in Hy; cbn in Hy.
  step_ok Hy'. rewrite gelu_tanh_Ok in Hy'; cbn in Hy'.
  apply linear_forward_Ok_inv in Hv as (l1 & n1 & Hs1 & _ & Hh & Hval).
  apply linear_forward_Ok_inv in Hv0 as (l2 & n2 & Hs2 & _ & Hh' & Hval').
  rewrite Hx in Hs1. apply app_inj_tail in Hs1 as [<- <-].
  rewrite Hx' in Hs2. apply app_inj_tail in Hs2 as [<- <-].
  apply linear_forward_Ok_inv in Hy as (l3 & n3 & Hs3 & _ & _ & Hout).
  apply linear_forward_Ok_inv in Hy' as (l4 & n4 & Hs4 & _ & _ & Hout').
  cbn in Hs3, Hs4. rewrite Hh in Hs3. rewrite Hh' in Hs4.
  apply app_inj_tail in Hs3 as [<- <-]. apply app_inj_tail in Hs4 as [<- <-].
  rewrite Hout, Hout' by done. cbn. f_equal. f_equal.
  apply list_fmap_ext. intros _ j _. f_equal. f_equal.
  rewrite Hval, Hval' by done. f_equal. f_equal.
  apply list_fmap_ext. intros k i [-> Hk]%lookup_seq. f_equal.
  by apply Hrow.
Qed.

(** X7.  [SiglipMLP(config)] constructs an object exactly when
    [hidden_size] and [intermediate_size] are not negative and the
    machine creates the weights and the biases of the two layers; no other
    attribute of the config matters. *)
Theorem mlp_init_returns_iff (config : SiglipVisionConfig.t R) :
  let hidden := SiglipVisionConfig.hidden_size config in
  let inter := SiglipVisionConfig.intermediate_size config in
  returns (SiglipMLP.__init__ config) = true ↔
  0 ≤ hidden ∧ 0 ≤ inter ∧
  alloc_error [inter; hidden] = None ∧ alloc_error [inter] = None ∧
  alloc_error [hidden; inter] = None ∧ alloc_error [hidden] = None.
Proof.
  intros hidden inter. unfold SiglipMLP.__init__.
  rewrite load_global_super; cbn. rewrite load_global_nn; cbn. split.
  - intros (self & Hinit)%returns_true_Ok.
    apply bind_Ok_inv in Hinit as (fc1 & Hfc1 & Hinit). cbn in Hinit.
    apply bind_Ok_inv in Hinit as (fc2 & Hfc2 & _).
    pose proof Hfc1 as Hsizes.
    apply linear_init_Ok_inv in Hsizes as (? & ? & _).
    unfold nn.Linear.__init__ in Hfc1, Hfc2.
    apply bind_Ok_inv in Hfc1 as (w1 & Hw1 & Hfc1).
    apply bind_Ok_inv in Hfc1 as (b1 & Hb1 & _).
    apply bind_Ok_inv in Hfc2 as (w2 & Hw2 & Hfc2).
    apply bind_Ok_inv in Hfc2 as (b2 & Hb2 & _).
    repeat split; try done; by eapply empty_Ok_allocates.
  - intros (Hhid & Hint & Hw1 & Hb1 & Hw2 & Hb2). unfold nn.Linear.__init__.
    rewrite !empty_returns by (done || (repeat constructor; lia)). done.
Qed.

Lemma broadcast_rev_same (s : list nat) : broadcast_rev s s = Ok s.
Proof.
  induction s as [|d s IH]; [done|]. cbn. rewrite IH; cbn.
  by destruct (decide (d = d)).
Qed.

Lemma add_same_shape_Ok_inv (x y out : Tensor R) :
  shape y = shape x → add x y = Ok out → shape out = shape x.
Proof.
  intros Hy. unfold add, broadcast_shapes. rewrite Hy, broadcast_rev_same.
  cbn. intros [= <-]. cbn. apply reverse_involutive.
Qed.

Lemma layer_norm_forward_shape (l : nn.LayerNorm.t R) (x y : Tensor R) :
  nn.LayerNorm.forward l x = Ok y → shape y = shape x.
Proof.
  unfold nn.LayerNorm.forward.
  destruct (last (shape x)); [|discriminate].
  case_decide; [|discriminate]. by intros [= <-].
Qed.

Lemma mlp_forward_shape
    (config : SiglipVisionConfig.t R) (self : SiglipMLP.t R)
    (x y : Tensor R) :
  SiglipMLP.__init__ config = Ok self →
  SiglipMLP.forward self x = Ok y → shape y = shape x.
Proof.
  intros Hinit Hy. unfold SiglipMLP.__init__ in Hinit.
  rewrite load_global_super in Hinit; cbn in Hinit.
  rewrite load_global_nn in Hinit; cbn in Hinit.
  step_ok Hinit. cbn in Hinit. step_ok Hinit. injection Hinit as <-.
  apply linear_init_Ok_inv in Hv as (Hhid & _ & Hin1 & _).
  apply linear_init_Ok_inv in Hv0 as (_ & _ & _ & Hout2 & _).
  rewrite mlp_forward_feed_forward in Hy. unfold Spec.feed_forward in Hy.
  cbn in Hy. step_ok Hy. rewrite gelu_tanh_Ok in Hy; cbn in Hy.
  apply linear_forward_Ok_inv in Hv1 as (lead & n & Hx & Hn & Hh & _).
  apply linear_forward_Ok_inv in Hy as (lead' & n' & Hh' & _ & Hy & _).
  cbn in Hh'. rewrite Hh in Hh'. apply app_inj_tail in Hh' as [<- _].
  rewrite Hy, Hx. f_equal. f_equal. lia.
Qed.

(** X8.  An encoder layer keeps the shape of its input.  If the layer's
    MLP was built by [SiglipMLP(config)] and its attention module returns
    hidden states of the shape it was given, then whenever [forward]
    returns, the result has the shape of the input, so layers stack. *)
Theorem encoder_layer_forward_preserves_shape
    (config : SiglipVisionConfig.t R) (self : SiglipEncoderLayer.t R)
    (hidden_states out : Tensor R) :
  SiglipMLP.__init__ config = Ok (SiglipEncoderLayer.mlp self) →
  (∀ y attended ignored,
     SiglipEncoderLayer.self_attention self [] [("hidden_states", y)]
       = Ok [attended; ignored] →
     shape attended = shape y) →
  SiglipEncoderLayer.forward self hidden_states = Ok out →
  shape out = shape hidden_states.
Proof.
  intros Hmlp Hattention Hfwd. unfold SiglipEncoderLayer.forward in Hfwd.
  step_ok Hfwd. rename v into normed, Hv into Hnorm.
  step_ok Hfwd. rename v into tuple, Hv into Hattn.
  step_ok Hfwd. destruct v as [attended ignored].
  destruct tuple as [|a [|b' [|]]]; try discriminate.
  injection Hv as -> ->.
  step_ok Hfwd. rename v into residual, Hv into Hadd.
  step_ok Hfwd. rename v into normed2, Hv into Hnorm2.
  step_ok Hfwd. rename v into fed, Hv into Hfed.
  step_ok Hfwd. injection Hfwd as ->. rename Hv into Hout.
  rewrite call_mlp_positional in Hfed.
  apply layer_norm_forward_shape in Hnorm, Hnorm2.
  apply Hattention in Hattn.
  apply (mlp_forward_shape config) in Hfed; [|done].
  apply add_same_shape_Ok_inv in Hadd; [|congruence].
  apply add_same_shape_Ok_inv in Hout; congruence.
Qed.
End further.



(** X4 at [small_config]: token 0 of image 0 is the same for
    [small_input] and for [small_input_patch0]. *)
Lemma embeddings_forward_token_local_small :
  SiglipVisionEmbeddings.__init__ Example.small_config =
    Ok Example.small_embeddings ∧
  ∃ out out',
    SiglipVisionEmbeddings.forward Example.small_embeddings
      Example.small_input = Ok out ∧
    SiglipVisionEmbeddings.forward Example.small_embeddings
      Example.small_input_patch0 = Ok out' ∧
    elem out [0; 0; 0]%nat = elem out' [0; 0; 0]%nat.
Proof.
  assert (SiglipVisionEmbeddings.__init__ Example.small_config =
            Ok Example.small_embeddings) as Hinit
    by (vm_compute; reflexivity).
  split; [exact Hinit|].
  destruct (returns_true_Ok
              (SiglipVisionEmbeddings.forward Example.small_embeddings
                 Example.small_input)) as [out Hforward];
    [vm_compute; reflexivity|].
  destruct (returns_true_Ok
              (SiglipVisionEmbeddings.forward Example.small_embeddings
                 Example.small_input_patch0)) as [out' Hforward'];
    [vm_compute; reflexivity|].
  exists out, out'. split; [exact Hforward|]. split; [exact Hforward'|].
  assert (shape out = [2; 4; 2]%nat) as Hshape.
  { assert (shape <$> SiglipVisionEmbeddings.forward
                        Example.small_embeddings Example.small_input
            = Ok [2; 4; 2]%nat) as Hs by (vm_compute; reflexivity).
    rewrite Hforward in Hs. by injection Hs. }
  apply (embeddings_forward_token_local Example.small_config
           Example.small_embeddings Example.small_input
           Example.small_input_patch0 out out' 2 1 4 4 0 0 0
           Hinit Hforward Hforward' eq_refl eq_refl).
  - rewrite Hshape. repeat constructor.
  - intros c y z Hy Hz.
    assert (y ∈ nn.Conv2d.window 2 2 0) as Hy' by exact Hy.
    assert (z ∈ nn.Conv2d.window 2 2 0) as Hz' by exact Hz.
    apply elem_of_window in Hy', Hz'.
    unfold Example.small_input_patch0; cbn.
    destruct y as [|[|y]]; [| |lia]; (destruct z as [|[|z]]; [| |lia]);
      reflexivity.
Defined.

(** X6 at [small_mlp]: row [[0, 0]] of the result is the same for
    [small_hidden_states] and for [small_hidden_states_row0]. *)
Lemma mlp_forward_position_wise_small :
  ∃ y y',
    SiglipMLP.forward Example.small_mlp Example.small_hidden_states
      = Ok y ∧
    SiglipMLP.forward Example.small_mlp Example.small_hidden_states_row0
      = Ok y' ∧
    ∀ o, elem y [0; 0; o]%nat = elem y' [0; 0; o]%nat.
Proof.
  destruct (returns_true_Ok
              (SiglipMLP.forward Example.small_mlp
                 Example.small_hidden_states)) as [y Hy];
    [vm_compute; reflexivity|].
  destruct (returns_true_Ok
              (SiglipMLP.forward Example.small_mlp
                 Example.small_hidden_states_row0)) as [y' Hy'];
    [vm_compute; reflexivity|].
  exists y, y'. split; [exact Hy|]. split; [exact Hy'|].
  apply (mlp_forward_position_wise Example.small_mlp
           Example.small_hidden_states Example.small_hidden_states_row0
           y y' [1; 4]%nat [0; 0]%nat 2 Hy Hy' eq_refl eq_refl eq_refl).
  intros i Hi. reflexivity.
Defined.

(** X8 at [small_encoder_layer]: hidden states of shape [[1, 4, 2]] come
    back with that shape. *)
Lemma encoder_layer_forward_preserves_shape_small :
  SiglipMLP.__init__ Example.small_config =
    Ok (SiglipEncoderLayer.mlp Example.small_encoder_layer) ∧
  ∃ out,
    SiglipEncoderLayer.forward Example.small_encoder_layer
      Example.small_hidden_states = Ok out ∧
    shape out = [1; 4; 2]%nat.
Proof.
  assert (SiglipMLP.__init__ Example.small_config =
            Ok (SiglipEncoderLayer.mlp Example.small_encoder_layer))
    as Hmlp by (vm_compute; reflexivity).
  split; [exact Hmlp|].
  destruct (returns_true_Ok
              (SiglipEncoderLayer.forward Example.small_encoder_layer
                 Example.small_hidden_states)) as [out Hforward];
    [vm_compute; reflexivity|].
  exists out. split; [exact Hforward|].
  apply (encoder_layer_forward_preserves_shape Example.small_config
           Example.small_encoder_layer Example.small_hidden_states out
           Hmlp); [|exact Hforward].
  intros y attended ignored Hattention. cbn in Hattention.
  by injection Hattention as <- _.
Defined.
